(** * The ticket WebSocket hook of the SuperMSP dashboard

    A shallow embedding of [Frontend/src/hooks/useTicketWebSocket.js]:
    the four [useState] cells, the option callbacks handed to
    [useWebSocket], the four [useEffect] bodies and the [sendMessage]
    wrapper of the returned object, followed by the properties of the
    real-time event client that the specification states about them. *)

From Stdlib Require Import ZArith List Ascii String Bool Lia.
From Stdlib Require Import Floats.SpecFloat.
Import ListNotations.

Local Open Scope string_scope.
Local Open Scope Z_scope.
Local Open Scope list_scope.

Set Warnings "-register-all".

(** ** JavaScript values

    The values the hook handles: what [JSON.parse] produces for an
    inbound frame, what a property read yields ([undefined] for a missing
    property) and what a consumer may pass to [sendMessage]. A number is
    an IEEE 754 double; an object is the list of its members in source
    order. *)

Inductive value : Type :=
| VUndefined
| VNull
| VBool (b : bool)
| VNumber (x : spec_float)
| VBigInt (z : Z)
| VString (s : string)
| VArray (elems : list value)
| VObject (members : list (string * value)).

(** [ToBoolean], the test of [if (x)]: [undefined], [null], [false],
    [+0], [-0], [NaN], [0n] and the empty string are falsy; every array
    and every object is truthy. *)
Definition ToBoolean (v : value) : bool :=
  match v with
  | VUndefined | VNull => false
  | VBool b => b
  | VNumber (S754_zero _) | VNumber S754_nan => false
  | VNumber _ => true
  | VBigInt z => negb (z =? 0)%Z
  | VString s => negb (s =? "")%string
  | VArray _ | VObject _ => true
  end.

(** Member lookup in a member list. [JSON.parse] keeps the last of
    several members with one key. *)
Fixpoint lookup (k : string) (members : list (string * value)) : option value :=
  match members with
  | [] => None
  | (k', v) :: rest =>
      match lookup k rest with
      | Some v' => Some v'
      | None => if (k =? k')%string then Some v else None
      end
  end.

(** The property read [v.k] for the names the hook reads ([type],
    [timeline], [pending_tickets]): none of them is defined on a
    primitive's wrapper or on [Array.prototype], so only an object's own
    members answer. *)
Definition Get (v : value) (k : string) : value :=
  match v with
  | VObject members =>
      match lookup k members with
      | Some x => x
      | None => VUndefined
      end
  | _ => VUndefined
  end.

(** Strict equality of a value with a string literal, as the [case]
    labels of a [switch] compare. *)
Definition is_string (v : value) (lit : string) : bool :=
  match v with
  | VString s => (s =? lit)%string
  | _ => false
  end.

(** ** Completions

    A JavaScript call either returns or throws. *)

Inductive exn : Type :=
| TypeError.

Inductive completion (A : Type) : Type :=
| Normal (a : A)
| Throw (e : exn).

Arguments Normal {A} a.
Arguments Throw {A} e.

Definition bind {A B : Type} (c : completion A) (k : A -> completion B)
  : completion B :=
  match c with
  | Normal a => k a
  | Throw e => Throw e
  end.

Notation "x <- c ;; k" := (bind c (fun x => k))
  (at level 61, c at next level, right associativity).
Notation "' pat <- c ;; k" := (bind c (fun x => match x with pat => k end))
  (at level 61, pat pattern, c at next level, right associativity).

(** [const { type, timeline: newTimeline, pending_tickets: newPendingTickets } = m]:
    destructuring [null] or [undefined] throws a [TypeError]; any other
    value yields the three property reads. *)
Definition destructure (m : value) : completion (value * value * value) :=
  match m with
  | VUndefined | VNull => Throw TypeError
  | _ => Normal (Get m "type", Get m "timeline", Get m "pending_tickets")
  end.

(** [JSON.stringify] throws a [TypeError] when it meets a BigInt. *)
Fixpoint serializable (v : value) : bool :=
  match v with
  | VBigInt _ => false
  | VArray elems => forallb serializable elems
  | VObject members => forallb (fun '(_, x) => serializable x) members
  | _ => true
  end.

(** ** The hook's state *)

(** [ReadyState] of react-use-websocket, as the source names its members. *)
Inductive ReadyState : Type :=
| UNINSTANTIATED
| CONNECTING
| OPEN
| CLOSING
| CLOSED.

Definition ReadyState_eqb (a b : ReadyState) : bool :=
  match a, b with
  | UNINSTANTIATED, UNINSTANTIATED
  | CONNECTING, CONNECTING
  | OPEN, OPEN
  | CLOSING, CLOSING
  | CLOSED, CLOSED => true
  | _, _ => false
  end.

(** One instance of the hook: the four [useState] cells, the values
    [useWebSocket] returned at the last render, the interval armed by the
    heartbeat effect (the time, in milliseconds, at which it fires next),
    the clock, and the frames handed to the library's [sendMessage],
    oldest first. An entry [v] of [wire] stands for the text
    [JSON.stringify(v)]. *)
Record hook : Type := mkHook {
  timeline : value;
  pendingTickets : value;
  connectionStatus : string;
  lastMessage : value;
  readyState : ReadyState;
  lastJsonMessage : value;
  pingInterval : option Z;
  now : Z;
  wire : list value
}.

Definition setTimeline (v : value) (h : hook) : hook :=
  mkHook v h.(pendingTickets) h.(connectionStatus) h.(lastMessage)
         h.(readyState) h.(lastJsonMessage) h.(pingInterval) h.(now) h.(wire).

Definition setPendingTickets (v : value) (h : hook) : hook :=
  mkHook h.(timeline) v h.(connectionStatus) h.(lastMessage)
         h.(readyState) h.(lastJsonMessage) h.(pingInterval) h.(now) h.(wire).

Definition setConnectionStatus (c : string) (h : hook) : hook :=
  mkHook h.(timeline) h.(pendingTickets) c h.(lastMessage)
         h.(readyState) h.(lastJsonMessage) h.(pingInterval) h.(now) h.(wire).

Definition setLastMessage (v : value) (h : hook) : hook :=
  mkHook h.(timeline) h.(pendingTickets) h.(connectionStatus) v
         h.(readyState) h.(lastJsonMessage) h.(pingInterval) h.(now) h.(wire).

Definition with_readyState (rs : ReadyState) (h : hook) : hook :=
  mkHook h.(timeline) h.(pendingTickets) h.(connectionStatus) h.(lastMessage)
         rs h.(lastJsonMessage) h.(pingInterval) h.(now) h.(wire).

Definition with_lastJsonMessage (m : value) (h : hook) : hook :=
  mkHook h.(timeline) h.(pendingTickets) h.(connectionStatus) h.(lastMessage)
         h.(readyState) m h.(pingInterval) h.(now) h.(wire).

Definition with_pingInterval (t : option Z) (h : hook) : hook :=
  mkHook h.(timeline) h.(pendingTickets) h.(connectionStatus) h.(lastMessage)
         h.(readyState) h.(lastJsonMessage) t h.(now) h.(wire).

Definition with_now (t : Z) (h : hook) : hook :=
  mkHook h.(timeline) h.(pendingTickets) h.(connectionStatus) h.(lastMessage)
         h.(readyState) h.(lastJsonMessage) h.(pingInterval) t h.(wire).

(** The [sendMessage] that [useWebSocket] returns: the frame goes to the
    library. *)
Definition lib_sendMessage (frame : value) (h : hook) : hook :=
  mkHook h.(timeline) h.(pendingTickets) h.(connectionStatus) h.(lastMessage)
         h.(readyState) h.(lastJsonMessage) h.(pingInterval) h.(now)
         (h.(wire) ++ [frame]).

(** [sendMessage(JSON.stringify(v))]. *)
Definition send_json (v : value) (h : hook) : completion hook :=
  if serializable v then Normal (lib_sendMessage v h) else Throw TypeError.

(** ** The options handed to [useWebSocket] (lines 15-33) *)

Definition onOpen (h : hook) : hook := setConnectionStatus "Connected" h.

Definition onClose (h : hook) : hook := setConnectionStatus "Disconnected" h.

Definition onError (error : value) (h : hook) : hook :=
  setConnectionStatus "Error" h.

Definition shouldReconnect (closeEvent : value) : bool := true.

Definition reconnectAttempts : Z := 10.

Definition reconnectInterval : Z := 3000.

(** ** The effects *)

(** The effect on [lastJsonMessage] (lines 37-81), the event dispatcher. *)
Definition message_effect (h : hook) : completion hook :=
  let m := h.(lastJsonMessage) in
  if ToBoolean m then
    let h := setLastMessage m h in
    '(type, newTimeline, newPendingTickets) <- destructure m ;;
    if is_string type "initial_data" then
      let h := if ToBoolean newTimeline then setTimeline newTimeline h else h in
      let h := if ToBoolean newPendingTickets
               then setPendingTickets newPendingTickets h else h in
      Normal h
    else if is_string type "timeline_update" then
      Normal (if ToBoolean newTimeline then setTimeline newTimeline h else h)
    else if is_string type "pending_tickets_update" then
      Normal (if ToBoolean newPendingTickets
              then setPendingTickets newPendingTickets h else h)
    else if is_string type "ticket_update" then Normal h
    else if is_string type "connection_established" then Normal h
    else if is_string type "error" then Normal h
    else Normal h
  else Normal h.

Definition connectionStatusMap (rs : ReadyState) : string :=
  match rs with
  | CONNECTING => "Connecting"
  | OPEN => "Connected"
  | CLOSING => "Closing"
  | CLOSED => "Disconnected"
  | UNINSTANTIATED => "Uninstantiated"
  end.

(** The effect on [readyState] that mirrors it in [connectionStatus]
    (lines 84-93). *)
Definition status_effect (h : hook) : hook :=
  setConnectionStatus (connectionStatusMap h.(readyState)) h.

Definition subscribe_frame : value :=
  VObject [("type", VString "subscribe");
           ("subscriptions",
            VArray [VString "timeline_updates";
                    VString "pending_tickets_updates";
                    VString "ticket_updates"])].

(** The subscription effect (lines 96-103). *)
Definition subscribe_effect (h : hook) : completion hook :=
  match h.(readyState) with
  | OPEN => send_json subscribe_frame h
  | _ => Normal h
  end.

Definition ping_frame : value := VObject [("type", VString "ping")].

Definition ping_period : Z := 30000.

(** The heartbeat effect (lines 106-114): [setInterval] arms a timer
    that first fires one period from now. *)
Definition ping_effect (h : hook) : hook :=
  match h.(readyState) with
  | OPEN => with_pingInterval (Some (h.(now) + ping_period)) h
  | _ => h
  end.

(** Its cleanup, [clearInterval(pingInterval)], which exists only when
    the effect ran with [readyState === ReadyState.OPEN]. *)
Definition ping_cleanup (prev : ReadyState) (h : hook) : hook :=
  match prev with
  | OPEN => with_pingInterval None h
  | _ => h
  end.

(** The interval's callback. *)
Definition ping_callback (h : hook) : completion hook :=
  send_json ping_frame h.

(** ** The returned object (lines 116-127) *)

Definition isConnected (h : hook) : bool := ReadyState_eqb h.(readyState) OPEN.

Definition sendMessage (message : value) (h : hook) : completion hook :=
  match h.(readyState) with
  | OPEN => send_json message h
  | _ => Normal h
  end.

(** ** Renders

    React runs an effect after the first render and after every render
    in which one of its dependencies changed; the cleanups of the
    effects that run again come first, then the effects in the order of
    their declaration. A render and the effects it triggers are one step
    here: no timer and no socket callback runs between them. A setter
    called by an effect causes a further render in which no dependency
    has changed, hence no further effect. *)

(** The values of the first render: the initial [useState] cells. *)
Definition first_render (rs : ReadyState) (t : Z) : hook :=
  mkHook (VArray []) (VArray []) "Connecting" VNull rs VNull None t [].

Definition readyState_effects (h : hook) : completion hook :=
  let h := status_effect h in
  h <- subscribe_effect h ;;
  Normal (ping_effect h).

(** Mounting: every effect runs once. *)
Definition mount (rs : ReadyState) (t : Z) : completion hook :=
  h <- message_effect (first_render rs t) ;;
  readyState_effects h.

(** A render in which [useWebSocket] returns the ready state [rs]. The
    library's [sendMessage] is one function for the life of the hook, so
    the three effects on [readyState] run when [readyState] changed. *)
Definition render_readyState (rs : ReadyState) (h : hook) : completion hook :=
  let prev := h.(readyState) in
  if ReadyState_eqb prev rs then Normal h
  else readyState_effects (ping_cleanup prev (with_readyState rs h)).

(** A render in which [useWebSocket] returns a newly received
    [lastJsonMessage]. React compares the dependency with [Object.is]; a
    frame that parses to the very value of the previous one (a primitive)
    would not run the effect again, and running it again, as here, stores
    the same [lastMessage] and nothing else. *)
Definition render_lastJsonMessage (m : value) (h : hook) : completion hook :=
  message_effect (with_lastJsonMessage m h).

(** One millisecond passes; an interval that is due fires and is due
    again one period later. *)
Definition millisecond (h : hook) : completion hook :=
  let h := with_now (h.(now) + 1) h in
  match h.(pingInterval) with
  | Some due =>
      if due <=? h.(now)
      then ping_callback (with_pingInterval (Some (due + ping_period)) h)
      else Normal h
  | None => Normal h
  end.

(** What happens to a mounted hook: [useWebSocket] calls one of the
    option callbacks, returns a new [readyState] or a new
    [lastJsonMessage], a millisecond passes, or the consumer calls the
    returned [sendMessage]. *)
Inductive event : Type :=
| CallOnOpen
| CallOnClose
| CallOnError (error : value)
| ReadyStateIs (rs : ReadyState)
| JsonMessage (m : value)
| Millisecond
| CallSendMessage (message : value).

Definition step (e : event) (h : hook) : completion hook :=
  match e with
  | CallOnOpen => Normal (onOpen h)
  | CallOnClose => Normal (onClose h)
  | CallOnError error => Normal (onError error h)
  | ReadyStateIs rs => render_readyState rs h
  | JsonMessage m => render_lastJsonMessage m h
  | Millisecond => millisecond h
  | CallSendMessage message => sendMessage message h
  end.

(** A run: the events in order; a call that throws leaves the hook as it
    was (in [sendMessage], [JSON.stringify] throws before anything is
    sent). *)
Definition after (e : event) (h : hook) : hook :=
  match step e h with
  | Normal h' => h'
  | Throw _ => h
  end.

Definition run (es : list event) (h : hook) : hook :=
  fold_left (fun h e => after e h) es h.

(** The states of a mounted hook: any ready state and clock at the first
    render, then any events. *)
Inductive Reachable : hook -> Prop :=
| Reachable_mount rs t h :
    mount rs t = Normal h -> Reachable h
| Reachable_step e h :
    Reachable h -> Reachable (after e h).

(** Classes of events used to state properties of runs. *)

Definition is_message (e : event) : bool :=
  match e with
  | JsonMessage _ => true
  | _ => false
  end.

Definition is_render (e : event) : bool :=
  match e with
  | ReadyStateIs _ => true
  | _ => false
  end.

Definition is_send (e : event) : bool :=
  match e with
  | CallSendMessage _ => true
  | _ => false
  end.

Definition opens (e : event) : bool :=
  match e with
  | ReadyStateIs OPEN => true
  | _ => false
  end.

(** The events of a lost connection: the [onClose] and [onError]
    callbacks and a render with a ready state other than [OPEN]. *)
Definition connection_lost (e : event) : bool :=
  match e with
  | CallOnClose | CallOnError _ => true
  | ReadyStateIs OPEN => false
  | ReadyStateIs _ => true
  | _ => false
  end.

(** The callbacks and the inbound frames, which concern neither the
    ready state nor a timer. *)
Definition quiet (e : event) : bool :=
  match e with
  | CallOnOpen | CallOnClose | CallOnError _ | JsonMessage _ => true
  | _ => false
  end.

(** The invariant of the heartbeat: the interval is armed exactly while
    the hook is connected, and its next firing is at most one period
    away. *)
Definition timer_matches (h : hook) : Prop :=
  match readyState h with
  | OPEN => exists due, pingInterval h = Some due /\
                        now h < due <= now h + ping_period
  | _ => pingInterval h = None
  end.

(** The milliseconds that pass in a run. *)
Fixpoint elapsed (es : list event) : Z :=
  match es with
  | [] => 0
  | Millisecond :: es' => 1 + elapsed es'
  | _ :: es' => elapsed es'
  end.

(** The type tags the dispatcher has a [case] for. *)
Definition recognized : list string :=
  ["initial_data"; "timeline_update"; "pending_tickets_update";
   "ticket_update"; "connection_established"; "error"].

Definition recognized_tag (type : value) : bool :=
  existsb (is_string type) recognized.

(** ** The connection manager

    [useWebSocket] of react-use-websocket owns the socket and the
    reconnection; its code is not part of the repository. The hook hands
    it the options [shouldReconnect], [reconnectAttempts] and
    [reconnectInterval] above, and receives its callbacks and its
    [readyState]. *)

Module ConnectionManager.

(** Modelled from the spec: the Connection Manager, which the dependency
    react-use-websocket implements. It owns the hook it drives, the
    number of reconnection attempts made, the pending reconnection timer
    (its due time) and, for the record, the times of the attempts. *)
Record manager : Type := mkManager {
  client : hook;
  reconnectCount : Z;
  reconnectTimer : option Z;
  attempts : list Z
}.

(** Modelled from the spec: the manager with its hook replaced. *)
Definition with_client (c : hook) (m : manager) : manager :=
  mkManager c m.(reconnectCount) m.(reconnectTimer) m.(attempts).

(** Modelled from the spec: [connect(endpoint)] establishes the socket;
    the status is [Connecting] until it opens. *)
Definition connect (t : Z) : completion manager :=
  c <- mount CONNECTING t ;;
  Normal (mkManager c 0 None []).

(** Modelled from the spec: on open the status becomes [Connected],
    which triggers the Subscription Negotiator and starts the Liveness
    Prober (the hook's effects on [readyState]). *)
Definition opened (m : manager) : completion manager :=
  c <- render_readyState OPEN (onOpen m.(client)) ;;
  Normal (with_client c m).

(** Modelled from the spec: on close or error the status becomes
    [Disconnected] (an abnormal closure reports its error first), the
    Liveness Prober stops and, if the reconnection policy permits (up to
    a bounded maximum number of attempts), a reconnection attempt is
    scheduled after a fixed interval. *)
Definition closed (error : option value) (closeEvent : value) (m : manager)
  : completion manager :=
  let c := match error with
           | Some err => onError err m.(client)
           | None => m.(client)
           end in
  c <- render_readyState CLOSED (onClose c) ;;
  if shouldReconnect closeEvent && (m.(reconnectCount) <? reconnectAttempts)
  then Normal (mkManager c m.(reconnectCount)
                 (Some (c.(now) + reconnectInterval)) m.(attempts))
  else Normal (with_client c m).

(** Modelled from the spec: the scheduled reconnection attempt; the
    status is [Connecting] again. *)
Definition reconnect (m : manager) : completion manager :=
  c <- render_readyState CONNECTING m.(client) ;;
  Normal (mkManager c (m.(reconnectCount) + 1) None
            (m.(attempts) ++ [c.(now)])).

(** Modelled from the spec: one millisecond passes for the hook's timer
    and for the reconnection timer. *)
Definition elapse (m : manager) : completion manager :=
  c <- millisecond m.(client) ;;
  let m := with_client c m in
  match m.(reconnectTimer) with
  | Some due => if due <=? c.(now) then reconnect m else Normal m
  | None => Normal m
  end.

(** Modelled from the spec: what the socket, the clock and the consumer
    do to a connection instance. *)
Inductive socket_event : Type :=
| Opened
| Closed (error : option value) (closeEvent : value)
| Frame (m : value)
| Elapse
| Send (message : value).

(** Modelled from the spec: inbound frames flow through the dispatcher
    into the store; the consumer's messages go through the hook's
    [sendMessage]. *)
Definition handle (e : socket_event) (m : manager) : completion manager :=
  match e with
  | Opened => opened m
  | Closed error closeEvent => closed error closeEvent m
  | Frame f =>
      c <- render_lastJsonMessage f m.(client) ;; Normal (with_client c m)
  | Elapse => elapse m
  | Send message =>
      c <- sendMessage message m.(client) ;; Normal (with_client c m)
  end.

(** Modelled from the spec: a run of one connection instance; as for
    the hook, a call that throws changes nothing. *)
Definition next (e : socket_event) (m : manager) : manager :=
  match handle e m with
  | Normal m' => m'
  | Throw _ => m
  end.

Definition play (es : list socket_event) (m : manager) : manager :=
  fold_left (fun m e => next e m) es m.

(** Modelled from the spec: the states of one connection instance. *)
Inductive Live : manager -> Prop :=
| Live_connect t m :
    connect t = Normal m -> Live m
| Live_next e m :
    Live m -> Live (next e m).

End ConnectionManager.

(** ** The socket's address (line 12) and [config.js]

    Strings are sequences of 8-bit characters: UTF-8 text. The patterns
    searched for below are ASCII, and an ASCII pattern occurs in a
    UTF-8 text exactly where it occurs in the text's UTF-16 form. *)

(** [s.slice(n)]: the string without its first [n] characters. *)
Fixpoint drop (n : nat) (s : string) : string :=
  match n, s with
  | O, _ => s
  | S n', String _ s' => drop n' s'
  | S _, EmptyString => EmptyString
  end.

(** [s.replace(pattern, replacement)] with a string pattern: the first
    occurrence of the pattern is replaced, the rest of the string kept.
    The replacement is taken literally, as it is for one without [$]. *)
Fixpoint String_replace (pattern replacement s : string) : string :=
  if String.prefix pattern s
  then (replacement ++ drop (String.length pattern) s)%string
  else match s with
       | EmptyString => EmptyString
       | String c s' => String c (String_replace pattern replacement s')
       end.

(** [s.includes(pattern)]. *)
Fixpoint includes (pattern s : string) : bool :=
  String.prefix pattern s ||
  match s with
  | EmptyString => false
  | String _ s' => includes pattern s'
  end.

(** [config.API_BASE_URL]: [import.meta.env.VITE_API_URL], a string when
    it is defined, or else the default of the mode. *)
Definition API_BASE_URL (VITE_API_URL : option string) (MODE : string) : string :=
  let fallback := if (MODE =? "production")%string
                  then "/api" else "http://localhost:8002" in
  match VITE_API_URL with
  | Some url => if (url =? "")%string then fallback else url
  | None => fallback
  end.

(** [socketUrl], for a given [config.API_BASE_URL]. *)
Definition socketUrl (base : string) : string :=
  (String_replace "https://" "wss://" (String_replace "http://" "ws://" base)
   ++ "/ws/tickets")%string.

(** ** The consumer: [Dashboard.jsx] *)

(** The class and the text of the connection indicator (lines 222-226). *)
Definition indicator_class (h : hook) : string :=
  if isConnected h then "connected" else "disconnected".

Definition indicator_text (h : hook) : string :=
  if (connectionStatus h =? "Connected")%string
  then "Real-time updates active"
  else ("Connection: " ++ connectionStatus h)%string.

(** [c.toUpperCase()] for one ASCII character; other characters are
    left alone here, and the properties below are about ASCII text. *)
Definition upper_char (c : Ascii.ascii) : Ascii.ascii :=
  let n := Ascii.nat_of_ascii c in
  if ((97 <=? n) && (n <=? 122))%nat
  then Ascii.ascii_of_nat (n - 32)
  else c.

Fixpoint toUpperCase (s : string) : string :=
  match s with
  | EmptyString => EmptyString
  | String c s' => String (upper_char c) (toUpperCase s')
  end.

Definition is_ascii (s : string) : bool :=
  forallb (fun c => (Ascii.nat_of_ascii c <? 128)%nat) (list_ascii_of_string s).

(** The text of an entry's status badge (line 304),
    [entry.status.replace('_', ' ').toUpperCase()], for an entry that is
    an object or a primitive: a status that is not a string has no
    [replace] to call, and [undefined] or [null] has no property;
    either way a [TypeError]. *)
Definition status_badge (entry : value) : completion string :=
  match Get entry "status" with
  | VString status => Normal (toUpperCase (String_replace "_" " " status))
  | _ => Throw TypeError
  end.

(** The test [v.length === 0] of the timeline and of the pending
    tickets (lines 293 and 343): reading a property of [undefined] or
    [null] throws; an array and a string have a length, an object has
    the member it was given, anything else has none. *)
Definition length_is_zero (v : value) : completion bool :=
  match v with
  | VUndefined | VNull => Throw TypeError
  | VArray elems => Normal (match elems with [] => true | _ => false end)
  | VString s => Normal (s =? "")%string
  | VObject members =>
      Normal (match lookup "length" members with
              | Some (VNumber (S754_zero _)) => true
              | _ => false
              end)
  | _ => Normal false
  end.

(** The entries the dashboard maps over,
    [v.length === 0 ? (nothing) : v.map(...)] (lines 293-299 and
    343-349): only an array has a [map] to call. *)
Definition mapped_entries (v : value) : completion (list value) :=
  empty <- length_is_zero v ;;
  if empty then Normal []
  else match v with
       | VArray elems => Normal elems
       | _ => Throw TypeError
       end.

Definition is_array (v : value) : bool :=
  match v with
  | VArray _ => true
  | _ => false
  end.

(** An inbound message whose [timeline] and [pending_tickets] members
    are arrays where they are truthy. *)
Definition carries_arrays (e : event) : bool :=
  match e with
  | JsonMessage m =>
      (negb (ToBoolean (Get m "timeline")) || is_array (Get m "timeline")) &&
      (negb (ToBoolean (Get m "pending_tickets"))
       || is_array (Get m "pending_tickets"))
  | _ => true
  end.

(** ** Measures of a run *)

(** The frames of a sequence that the dispatcher records: [lastMessage]
    is the last truthy one. *)
Definition last_truthy (frames : list value) (previous : value) : value :=
  fold_left (fun acc m => if ToBoolean m then m else acc) frames previous.

(** A frame as the hook's own effects send it. *)
Definition is_subscribe (f : value) : bool :=
  is_string (Get f "type") "subscribe".

(** The renders of a run in which the ready state becomes [OPEN],
    counted from the ready state [rs]. *)
Fixpoint connections (rs : ReadyState) (es : list event) : nat :=
  match es with
  | [] => 0
  | ReadyStateIs r :: es' =>
      (if negb (ReadyState_eqb rs r) && ReadyState_eqb r OPEN then 1 else 0)
      + connections r es'
  | _ :: es' => connections rs es'
  end.

(** The status strings: what [connectionStatusMap] yields and what the
    three callbacks set. *)
Definition callback_status : list string :=
  ["Connected"; "Disconnected"; "Error"].

Definition status_known (h : hook) : Prop :=
  connectionStatus h = connectionStatusMap (readyState h) \/
  In (connectionStatus h) callback_status.

(** * Properties *)

Lemma ReadyState_eqb_spec (a b : ReadyState) :
  reflect (a = b) (ReadyState_eqb a b).
Proof. destruct a, b; constructor; congruence. Qed.

Lemma ReadyState_eqb_refl (a : ReadyState) : ReadyState_eqb a a = true.
Proof. destruct a; reflexivity. Qed.

(** ** The first render *)

(** C10: right after the hook is instantiated the timeline and the
    pending tickets are empty arrays, the status is the string
    [Connecting] and the last message is [null]; mounting while the
    socket is connecting changes none of that. *)
Theorem initial_view :
  (forall rs t,
      timeline (first_render rs t) = VArray [] /\
      pendingTickets (first_render rs t) = VArray [] /\
      connectionStatus (first_render rs t) = "Connecting" /\
      lastMessage (first_render rs t) = VNull) /\
  (forall t, mount CONNECTING t = Normal (first_render CONNECTING t)).
Proof.
  split.
  - intros rs t. repeat split.
  - intros t. reflexivity.
Qed.

(** ** The event dispatcher *)

Arguments Get : simpl never.

Lemma destructure_truthy (m : value) :
  ToBoolean m = true ->
  destructure m = Normal (Get m "type", Get m "timeline", Get m "pending_tickets").
Proof. destruct m; cbn [ToBoolean destructure]; intros H; try discriminate; reflexivity. Qed.

Lemma Get_falsy (m : value) (k : string) :
  ToBoolean m = false -> Get m k = VUndefined.
Proof. destruct m; cbn [ToBoolean]; intros H; try discriminate; reflexivity. Qed.

(** The dispatcher closed on its three property reads: the hook after a
    truthy message. *)
Lemma message_effect_truthy (h : hook) :
  ToBoolean h.(lastJsonMessage) = true ->
  message_effect h =
  Normal
    (let m := h.(lastJsonMessage) in
     let h1 := setLastMessage m h in
     let type := Get m "type" in
     let newTimeline := Get m "timeline" in
     let newPendingTickets := Get m "pending_tickets" in
     if is_string type "initial_data" then
       let h2 := if ToBoolean newTimeline then setTimeline newTimeline h1 else h1 in
       if ToBoolean newPendingTickets
       then setPendingTickets newPendingTickets h2 else h2
     else if is_string type "timeline_update" then
       if ToBoolean newTimeline then setTimeline newTimeline h1 else h1
     else if is_string type "pending_tickets_update" then
       if ToBoolean newPendingTickets
       then setPendingTickets newPendingTickets h1 else h1
     else h1).
Proof.
  intros Hm. unfold message_effect. rewrite Hm, (destructure_truthy _ Hm).
  cbn [bind].
  repeat match goal with
         | |- context [if ?c then _ else _] => destruct c
         end; reflexivity.
Qed.

Lemma message_effect_falsy (h : hook) :
  ToBoolean h.(lastJsonMessage) = false -> message_effect h = Normal h.
Proof. intros Hm. unfold message_effect. rewrite Hm. reflexivity. Qed.

Ltac split_ifs :=
  repeat match goal with
         | |- context [if ?c then _ else _] => destruct c
         end.

Lemma after_message_truthy (m : value) (h : hook) :
  ToBoolean m = true ->
  after (JsonMessage m) h =
  let h1 := setLastMessage m (with_lastJsonMessage m h) in
  let type := Get m "type" in
  let newTimeline := Get m "timeline" in
  let newPendingTickets := Get m "pending_tickets" in
  if is_string type "initial_data" then
    let h2 := if ToBoolean newTimeline then setTimeline newTimeline h1 else h1 in
    if ToBoolean newPendingTickets
    then setPendingTickets newPendingTickets h2 else h2
  else if is_string type "timeline_update" then
    if ToBoolean newTimeline then setTimeline newTimeline h1 else h1
  else if is_string type "pending_tickets_update" then
    if ToBoolean newPendingTickets
    then setPendingTickets newPendingTickets h1 else h1
  else h1.
Proof.
  intros Hm. unfold after. cbn [step]. unfold render_lastJsonMessage.
  rewrite (message_effect_truthy (with_lastJsonMessage m h) Hm). reflexivity.
Qed.

Lemma after_message_falsy (m : value) (h : hook) :
  ToBoolean m = false ->
  after (JsonMessage m) h = with_lastJsonMessage m h.
Proof.
  intros Hm. unfold after. cbn [step]. unfold render_lastJsonMessage.
  rewrite (message_effect_falsy (with_lastJsonMessage m h) Hm). reflexivity.
Qed.

(** The dispatcher never throws: the guard [if (lastJsonMessage)] keeps
    [null] away from the destructuring. *)
Lemma message_effect_returns (h : hook) :
  exists h', message_effect h = Normal h'.
Proof.
  destruct (ToBoolean h.(lastJsonMessage)) eqn:Hm.
  - rewrite (message_effect_truthy _ Hm). eexists; reflexivity.
  - rewrite (message_effect_falsy _ Hm). eexists; reflexivity.
Qed.

Lemma after_message (m : value) (h : hook) :
  step (JsonMessage m) h = Normal (after (JsonMessage m) h).
Proof.
  unfold after. destruct (message_effect_returns (with_lastJsonMessage m h)) as [h' E].
  cbn [step]. unfold render_lastJsonMessage. rewrite E. reflexivity.
Qed.

(** A frame touches neither the connection nor the wire. *)
Lemma message_frame (m : value) (h : hook) :
  let h' := after (JsonMessage m) h in
  readyState h' = readyState h /\
  connectionStatus h' = connectionStatus h /\
  pingInterval h' = pingInterval h /\
  now h' = now h /\
  wire h' = wire h /\
  lastJsonMessage h' = m.
Proof.
  destruct (ToBoolean m) eqn:Hm; cbv zeta.
  - rewrite (after_message_truthy m h Hm). cbv zeta.
    split_ifs; repeat split.
  - rewrite (after_message_falsy m h Hm). repeat split.
Qed.

(** C5: a frame whose type tag is none of the six recognized ones is
    processed without a throw and leaves the timeline, the pending
    tickets, the ready state, the status, the heartbeat timer and the
    wire as they were: nothing is altered and the connection is not
    closed. *)
Theorem unknown_tag_is_noop (m : value) (h : hook) :
  recognized_tag (Get m "type") = false ->
  exists h',
    step (JsonMessage m) h = Normal h' /\
    timeline h' = timeline h /\
    pendingTickets h' = pendingTickets h /\
    readyState h' = readyState h /\
    connectionStatus h' = connectionStatus h /\
    pingInterval h' = pingInterval h /\
    wire h' = wire h.
Proof.
  intros Htag. exists (after (JsonMessage m) h).
  split; [apply after_message|].
  destruct (message_frame m h) as (Hrs & Hcs & Hpi & _ & Hw & _).
  cut (timeline (after (JsonMessage m) h) = timeline h /\
       pendingTickets (after (JsonMessage m) h) = pendingTickets h).
  { intros [Ht Hp]. repeat split; assumption. }
  destruct (ToBoolean m) eqn:Hm.
  - rewrite (after_message_truthy m h Hm). cbv zeta.
    unfold recognized_tag, recognized in Htag. cbn [existsb] in Htag.
    repeat (apply orb_false_elim in Htag; destruct Htag as [?E Htag]).
    rewrite E, E0, E1. split; reflexivity.
  - rewrite (after_message_falsy m h Hm). split; reflexivity.
Qed.

Lemma unknown_tag_is_noop_witness :
  exists h',
    step (JsonMessage (VObject [("type", VString "unsupported_xyz")]))
         (first_render OPEN 0) = Normal h' /\
    timeline h' = VArray [] /\
    pendingTickets h' = VArray [] /\
    readyState h' = OPEN /\
    connectionStatus h' = "Connecting" /\
    pingInterval h' = None /\
    wire h' = [].
Proof.
  apply (unknown_tag_is_noop (VObject [("type", VString "unsupported_xyz")])
           (first_render OPEN 0)).
  reflexivity.
Defined.

Lemma run_app (es1 es2 : list event) (h : hook) :
  run (es1 ++ es2) h = run es2 (run es1 h).
Proof. unfold run. apply fold_left_app. Qed.

Lemma truthy_of_type (m : value) (tag : string) :
  Get m "type" = VString tag -> ToBoolean m = true.
Proof.
  intros Hty. destruct (ToBoolean m) eqn:E; [reflexivity|].
  rewrite (Get_falsy _ _ E) in Hty. discriminate.
Qed.

(** A [timeline_update] frame with a truthy payload replaces the
    timeline by that payload, whatever the hook held. *)
Lemma timeline_update_replaces (m : value) (h : hook) :
  Get m "type" = VString "timeline_update" ->
  ToBoolean (Get m "timeline") = true ->
  timeline (after (JsonMessage m) h) = Get m "timeline".
Proof.
  intros Hty Hp.
  rewrite (after_message_truthy m h (truthy_of_type _ _ Hty)). cbv zeta.
  rewrite Hty, Hp. reflexivity.
Qed.

(** C1: after any sequence of [timeline_update] frames, each carrying a
    timeline (an array), the timeline is the payload of the frame
    processed last. *)
Theorem timeline_last_frame_wins (h : hook) (frames : list value) (m : value)
    (entries : list value) :
  Forall (fun f => Get f "type" = VString "timeline_update" /\
                   exists es, Get f "timeline" = VArray es) frames ->
  Get m "type" = VString "timeline_update" ->
  Get m "timeline" = VArray entries ->
  timeline (run (map JsonMessage (frames ++ [m])) h) = VArray entries.
Proof.
  intros _ Hty Hp.
  rewrite map_app, run_app. cbn [map run fold_left].
  rewrite <- Hp. apply timeline_update_replaces; [exact Hty|].
  rewrite Hp. reflexivity.
Qed.

Lemma timeline_last_frame_wins_witness :
  timeline
    (run (map JsonMessage
            ([VObject [("type", VString "timeline_update");
                       ("timeline", VArray [VString "a"; VString "b"])]]
             ++ [VObject [("type", VString "timeline_update");
                          ("timeline", VArray [VString "c"])]]))
         (first_render OPEN 0))
  = VArray [VString "c"].
Proof.
  apply (timeline_last_frame_wins (first_render OPEN 0)
           [VObject [("type", VString "timeline_update");
                     ("timeline", VArray [VString "a"; VString "b"])]]
           (VObject [("type", VString "timeline_update");
                     ("timeline", VArray [VString "c"])])
           [VString "c"]).
  - constructor; [|constructor].
    split; [reflexivity|]. exists [VString "a"; VString "b"]. reflexivity.
  - reflexivity.
  - reflexivity.
Defined.

(** Processing one frame twice is processing it once, for every frame. *)
Lemma message_twice (m : value) (h : hook) :
  after (JsonMessage m) (after (JsonMessage m) h) = after (JsonMessage m) h.
Proof.
  destruct (ToBoolean m) eqn:Hm.
  - rewrite (after_message_truthy m (after (JsonMessage m) h) Hm).
    rewrite (after_message_truthy m h Hm). cbv zeta.
    destruct h as [tl pt cs lm rs lj pi t w].
    split_ifs; reflexivity.
  - rewrite (after_message_falsy m (after (JsonMessage m) h) Hm).
    rewrite (after_message_falsy m h Hm).
    destruct h; reflexivity.
Qed.

(** C7: delivering one [pending_tickets_update] frame twice in a row
    leaves the pending tickets, and the whole hook, as the first delivery
    left them. *)
Theorem pending_tickets_update_idempotent (m : value) (h : hook) :
  Get m "type" = VString "pending_tickets_update" ->
  pendingTickets (run [JsonMessage m; JsonMessage m] h) =
    pendingTickets (run [JsonMessage m] h) /\
  run [JsonMessage m; JsonMessage m] h = run [JsonMessage m] h.
Proof.
  intros _. cbn [run fold_left]. rewrite message_twice. split; reflexivity.
Qed.

Lemma pending_tickets_update_idempotent_witness :
  let m := VObject [("type", VString "pending_tickets_update");
                    ("pending_tickets", VArray [VString "t1"])] in
  let h := first_render OPEN 0 in
  pendingTickets (run [JsonMessage m; JsonMessage m] h) =
    pendingTickets (run [JsonMessage m] h) /\
  run [JsonMessage m; JsonMessage m] h = run [JsonMessage m] h.
Proof.
  apply (pending_tickets_update_idempotent
           (VObject [("type", VString "pending_tickets_update");
                     ("pending_tickets", VArray [VString "t1"])])
           (first_render OPEN 0)).
  reflexivity.
Defined.

(** A falsy field never reaches a setter, whatever the type tag. *)
Lemma falsy_timeline_kept (m : value) (h : hook) :
  ToBoolean (Get m "timeline") = false ->
  timeline (after (JsonMessage m) h) = timeline h.
Proof.
  intros Hp. destruct (ToBoolean m) eqn:Hm.
  - rewrite (after_message_truthy m h Hm). cbv zeta. rewrite Hp.
    split_ifs; reflexivity.
  - rewrite (after_message_falsy m h Hm). reflexivity.
Qed.

Lemma falsy_pending_tickets_kept (m : value) (h : hook) :
  ToBoolean (Get m "pending_tickets") = false ->
  pendingTickets (after (JsonMessage m) h) = pendingTickets h.
Proof.
  intros Hp. destruct (ToBoolean m) eqn:Hm.
  - rewrite (after_message_truthy m h Hm). cbv zeta. rewrite Hp.
    split_ifs; reflexivity.
  - rewrite (after_message_falsy m h Hm). reflexivity.
Qed.

(** C9: a [timeline_update] or [initial_data] frame whose [timeline]
    member is absent or [null] leaves the timeline as it was, and a
    [pending_tickets_update] or [initial_data] frame whose
    [pending_tickets] member is absent or [null] leaves the pending
    tickets as they were. *)
Theorem missing_payload_keeps_collection (m : value) (h : hook) :
  (Get m "type" = VString "timeline_update" \/
   Get m "type" = VString "initial_data" ->
   Get m "timeline" = VUndefined \/ Get m "timeline" = VNull ->
   timeline (after (JsonMessage m) h) = timeline h) /\
  (Get m "type" = VString "pending_tickets_update" \/
   Get m "type" = VString "initial_data" ->
   Get m "pending_tickets" = VUndefined \/ Get m "pending_tickets" = VNull ->
   pendingTickets (after (JsonMessage m) h) = pendingTickets h).
Proof.
  split; intros _ [Hp | Hp].
  - apply falsy_timeline_kept. rewrite Hp. reflexivity.
  - apply falsy_timeline_kept. rewrite Hp. reflexivity.
  - apply falsy_pending_tickets_kept. rewrite Hp. reflexivity.
  - apply falsy_pending_tickets_kept. rewrite Hp. reflexivity.
Qed.

Lemma missing_payload_keeps_collection_witness :
  timeline (after (JsonMessage
                     (VObject [("type", VString "timeline_update");
                               ("timeline", VNull)]))
                  (setTimeline (VArray [VString "e"]) (first_render OPEN 0)))
    = VArray [VString "e"] /\
  pendingTickets (after (JsonMessage
                           (VObject [("type", VString "initial_data");
                                     ("timeline", VArray [])]))
                        (setPendingTickets (VArray [VString "p"])
                           (first_render OPEN 0)))
    = VArray [VString "p"].
Proof.
  split.
  - exact (proj1 (missing_payload_keeps_collection
                    (VObject [("type", VString "timeline_update");
                              ("timeline", VNull)])
                    (setTimeline (VArray [VString "e"]) (first_render OPEN 0)))
             (or_introl eq_refl) (or_intror eq_refl)).
  - exact (proj2 (missing_payload_keeps_collection
                    (VObject [("type", VString "initial_data");
                              ("timeline", VArray [])])
                    (setPendingTickets (VArray [VString "p"])
                       (first_render OPEN 0)))
             (or_intror eq_refl) (or_introl eq_refl)).
Defined.

(** The scenario of the specification: an [initial_data] frame with one
    pending entry for ticket 1, then a [timeline_update] frame in which
    the ticket is completed. *)
Example end_to_end_scenario :
  let one := VNumber (S754_finite false 4503599627370496 (-52)) in
  let entry status steps :=
    VObject [("ticket_id", one); ("title", VString "T1");
             ("status", VString status); ("steps", VArray steps)] in
  let first :=
    VObject [("type", VString "initial_data");
             ("timeline", VArray [entry "pending" [VString "received"]]);
             ("pending_tickets", VArray [])] in
  let second :=
    VObject [("type", VString "timeline_update");
             ("timeline",
              VArray [entry "completed"
                        [VString "received"; VString "resolved"]])] in
  let h1 := run [JsonMessage first] (first_render OPEN 0) in
  let h2 := run [JsonMessage second] h1 in
  timeline h1 = VArray [entry "pending" [VString "received"]] /\
  pendingTickets h1 = VArray [] /\
  timeline h2 =
    VArray [entry "completed" [VString "received"; VString "resolved"]] /\
  pendingTickets h2 = VArray [] /\
  lastMessage h2 = second.
Proof. repeat split. Qed.

(** ** The consumer's [sendMessage] *)

Lemma dropped_send (message : value) (h : hook) :
  readyState h <> OPEN -> after (CallSendMessage message) h = h.
Proof.
  intros Hrs. unfold after. cbn [step]. unfold sendMessage.
  destruct (readyState h); try reflexivity. congruence.
Qed.

(** Where the status string mirrors the ready state, a status other than
    [Connected] means the hook is not connected. *)
Lemma status_not_connected (h : hook) :
  connectionStatus h = connectionStatusMap (readyState h) ->
  connectionStatus h <> "Connected" ->
  isConnected h = false.
Proof.
  intros E N. unfold isConnected.
  destruct (readyState h); try reflexivity.
  exfalso. apply N. exact E.
Qed.

(** C6, as the code has it: the guard of [sendMessage] is the ready
    state, not the status string. While the hook is not connected,
    whether that is read off [isConnected] or off a [connectionStatus]
    that mirrors the ready state and is not [Connected],
    [sendMessage(message)] returns without a throw and with the hook
    exactly as it was: nothing goes to the wire and nothing is kept, so
    every later run is the run the hook would have made without the
    call. *)
Theorem send_dropped_when_not_connected (message : value) (h : hook) :
  isConnected h = false \/
  (connectionStatus h = connectionStatusMap (readyState h) /\
   connectionStatus h <> "Connected") ->
  step (CallSendMessage message) h = Normal h /\
  wire (after (CallSendMessage message) h) = wire h /\
  forall es, run (CallSendMessage message :: es) h = run es h.
Proof.
  intros Hc.
  assert (Hrs : readyState h <> OPEN).
  { destruct Hc as [Hc | [E N]]; [|apply (status_not_connected h E) in N as Hc];
      unfold isConnected in Hc; intros Ho; rewrite Ho in Hc; discriminate. }
  assert (E : step (CallSendMessage message) h = Normal h).
  { cbn [step]. unfold sendMessage.
    destruct (readyState h); try reflexivity. congruence. }
  pose proof (dropped_send message h Hrs) as A.
  split; [exact E|]. split.
  - rewrite A. reflexivity.
  - intros es. cbn [run fold_left]. rewrite A. reflexivity.
Qed.

Lemma send_dropped_when_not_connected_witness :
  step (CallSendMessage (VBigInt 7)) (first_render CLOSED 0)
    = Normal (first_render CLOSED 0) /\
  wire (after (CallSendMessage (VBigInt 7)) (first_render CLOSED 0))
    = wire (first_render CLOSED 0) /\
  forall es, run (CallSendMessage (VBigInt 7) :: es) (first_render CLOSED 0)
             = run es (first_render CLOSED 0).
Proof.
  apply (send_dropped_when_not_connected (VBigInt 7) (first_render CLOSED 0)).
  left. reflexivity.
Defined.

(** C6 read on the status string fails: after [onError] the
    status is [Error] (lines 23-26) while [readyState] is still [OPEN],
    the guard of line 123 passes and the message is handed to the
    library. *)
Lemma send_reaches_wire_while_status_is_Error :
  let h := run [ReadyStateIs OPEN;
                CallOnError (VObject [("type", VString "error")])]
             (first_render CONNECTING 0) in
  let message := VObject [("type", VString "refresh")] in
  Reachable h /\
  connectionStatus h = "Error" /\
  connectionStatus h <> "Connected" /\
  isConnected h = true /\
  step (CallSendMessage message) h = Normal (lib_sendMessage message h) /\
  wire (after (CallSendMessage message) h) = wire h ++ [message] /\
  wire (after (CallSendMessage message) h) <> wire h.
Proof.
  intros h message. split.
  - subst h. cbn [run fold_left]. do 2 apply Reachable_step.
    apply (Reachable_mount CONNECTING 0). reflexivity.
  - vm_compute. repeat split; discriminate.
Qed.

(** Connected, the same call hands the frame to the library, or throws
    where [JSON.stringify] does. *)
Lemma send_when_connected (message : value) (h : hook) :
  readyState h = OPEN ->
  step (CallSendMessage message) h =
  if serializable message then Normal (lib_sendMessage message h)
  else Throw TypeError.
Proof. intros Hrs. cbn [step]. unfold sendMessage. rewrite Hrs. reflexivity. Qed.

(** ** Events that carry no frame *)

Ltac step_cases h :=
  destruct h as [tl pt cs lm rs lj pi t w];
  unfold after, step, render_readyState, readyState_effects, millisecond,
    sendMessage, ping_callback, send_json, onOpen, onClose, onError;
  cbn [readyState pingInterval now with_now with_readyState].

(** An event other than an inbound frame leaves the timeline, the
    pending tickets and the last message alone. *)
Lemma no_frame_keeps_views (e : event) (h : hook) :
  is_message e = false ->
  timeline (after e h) = timeline h /\
  pendingTickets (after e h) = pendingTickets h /\
  lastMessage (after e h) = lastMessage h.
Proof.
  intros He. destruct e as [| | err | r | m | | msg]; try discriminate;
    step_cases h.
  - repeat split.
  - repeat split.
  - repeat split.
  - destruct rs, r; cbn; repeat split.
  - destruct pi as [due|]; [destruct (due <=? t + 1)|]; cbn; repeat split.
  - destruct rs; try destruct (serializable msg); repeat split.
Qed.

Lemma run_no_frame_keeps_views (es : list event) (h : hook) :
  Forall (fun e => is_message e = false) es ->
  timeline (run es h) = timeline h /\
  pendingTickets (run es h) = pendingTickets h /\
  lastMessage (run es h) = lastMessage h.
Proof.
  intros Hes. revert h.
  induction Hes as [|e es He _ IH]; intros h.
  - repeat split.
  - cbn [run fold_left]. fold (run es (after e h)).
    destruct (IH (after e h)) as (Ht & Hp & Hl).
    destruct (no_frame_keeps_views e h He) as (Ht' & Hp' & Hl').
    repeat split; congruence.
Qed.

(** C8: the close and error callbacks and a render with a closed (or any
    not open) ready state leave the timeline, the pending tickets, the
    last message and the wire as they were; and through any run without
    an inbound frame, however the connection fares and whether or not a
    reconnection follows, the consumer keeps reading the last timeline
    and pending tickets. *)
Theorem connection_loss_keeps_views (h : hook) :
  (forall e, connection_lost e = true ->
     timeline (after e h) = timeline h /\
     pendingTickets (after e h) = pendingTickets h /\
     lastMessage (after e h) = lastMessage h /\
     wire (after e h) = wire h) /\
  (forall es, Forall (fun e => is_message e = false) es ->
     timeline (run es h) = timeline h /\
     pendingTickets (run es h) = pendingTickets h).
Proof.
  split.
  - intros e He.
    destruct e as [| | err | r | m | | msg]; try discriminate; step_cases h.
    + repeat split.
    + repeat split.
    + destruct r; try discriminate; destruct rs; cbn; repeat split.
  - intros es Hes.
    destruct (run_no_frame_keeps_views es h Hes) as (Ht & Hp & _).
    split; assumption.
Qed.

Lemma connection_loss_keeps_views_witness :
  let h := setPendingTickets (VArray [VString "p"])
             (setTimeline (VArray [VString "e"]) (first_render OPEN 0)) in
  (timeline (after (ReadyStateIs CLOSED) h) = timeline h /\
   pendingTickets (after (ReadyStateIs CLOSED) h) = pendingTickets h /\
   lastMessage (after (ReadyStateIs CLOSED) h) = lastMessage h /\
   wire (after (ReadyStateIs CLOSED) h) = wire h) /\
  (timeline (run [CallOnError VNull; CallOnClose; ReadyStateIs CLOSED;
                  Millisecond; ReadyStateIs CONNECTING; CallOnClose] h)
     = timeline h /\
   pendingTickets (run [CallOnError VNull; CallOnClose; ReadyStateIs CLOSED;
                        Millisecond; ReadyStateIs CONNECTING; CallOnClose] h)
     = pendingTickets h).
Proof.
  intros h. split.
  - apply (proj1 (connection_loss_keeps_views h) (ReadyStateIs CLOSED)).
    reflexivity.
  - apply (proj2 (connection_loss_keeps_views h)).
    repeat constructor.
Defined.

(** ** The connection's effects *)

(** The render in which the socket is first seen open: the status is
    mirrored, the subscription is sent, the heartbeat is armed. *)
Lemma render_open (h : hook) :
  readyState h <> OPEN ->
  step (ReadyStateIs OPEN) h =
  Normal (with_pingInterval (Some (now h + ping_period))
            (lib_sendMessage subscribe_frame
               (setConnectionStatus "Connected" (with_readyState OPEN h)))).
Proof.
  intros Hrs. destruct h as [tl pt cs lm rs lj pi t w].
  cbn [readyState] in Hrs. destruct rs; try reflexivity. congruence.
Qed.

Lemma after_open (h : hook) :
  readyState h <> OPEN ->
  after (ReadyStateIs OPEN) h =
  with_pingInterval (Some (now h + ping_period))
    (lib_sendMessage subscribe_frame
       (setConnectionStatus "Connected" (with_readyState OPEN h))).
Proof. intros Hrs. unfold after. rewrite (render_open h Hrs). reflexivity. Qed.

(** A render with the ready state unchanged runs no effect. *)
Lemma after_same_readyState (h : hook) :
  after (ReadyStateIs (readyState h)) h = h.
Proof.
  unfold after. cbn [step]. unfold render_readyState.
  rewrite ReadyState_eqb_refl. reflexivity.
Qed.

(** A render that leaves [OPEN], or passes between two other ready
    states, sends nothing and leaves no interval armed by this hook's
    effect. *)
Lemma after_not_open (r : ReadyState) (h : hook) :
  r <> OPEN ->
  readyState (after (ReadyStateIs r) h) = r /\
  wire (after (ReadyStateIs r) h) = wire h /\
  now (after (ReadyStateIs r) h) = now h /\
  pingInterval (after (ReadyStateIs r) h) =
    match readyState h with
    | OPEN => None
    | _ => pingInterval h
    end.
Proof.
  intros Hr. step_cases h.
  destruct r; try congruence; destruct rs; cbn; repeat split.
Qed.

Lemma after_quiet (e : event) (h : hook) :
  quiet e = true ->
  readyState (after e h) = readyState h /\
  pingInterval (after e h) = pingInterval h /\
  now (after e h) = now h /\
  wire (after e h) = wire h.
Proof.
  intros He. destruct e as [| | err | r | m | | msg]; try discriminate.
  - destruct h; repeat split.
  - destruct h; repeat split.
  - destruct h; repeat split.
  - destruct (message_frame m h) as (A & _ & B & C & D & _). repeat split; assumption.
Qed.

Lemma after_millisecond (h : hook) :
  after Millisecond h =
  match pingInterval h with
  | Some due =>
      if due <=? now h + 1
      then lib_sendMessage ping_frame
             (with_pingInterval (Some (due + ping_period))
                (with_now (now h + 1) h))
      else with_now (now h + 1) h
  | None => with_now (now h + 1) h
  end.
Proof.
  step_cases h. destruct pi as [due|]; [destruct (due <=? t + 1)|]; reflexivity.
Qed.

Lemma after_send (message : value) (h : hook) :
  readyState (after (CallSendMessage message) h) = readyState h /\
  pingInterval (after (CallSendMessage message) h) = pingInterval h /\
  now (after (CallSendMessage message) h) = now h /\
  exists l, wire (after (CallSendMessage message) h) = wire h ++ l.
Proof.
  step_cases h.
  destruct rs; try destruct (serializable message); cbn; repeat split;
    solve [exists []; symmetry; apply app_nil_r | eexists; reflexivity].
Qed.

Lemma timer_matches_after (e : event) (h : hook) :
  timer_matches h -> timer_matches (after e h).
Proof.
  intros I. destruct e as [| | err | r | m | | msg].
  - destruct h; exact I.
  - destruct h; exact I.
  - destruct h; exact I.
  - destruct (ReadyState_eqb_spec (readyState h) r) as [<- | Hne].
    + rewrite after_same_readyState. exact I.
    + destruct (ReadyState_eqb_spec r OPEN) as [-> | Hr].
      * rewrite (after_open h Hne). unfold timer_matches.
        cbn [readyState with_pingInterval lib_sendMessage setConnectionStatus
             with_readyState pingInterval now].
        eexists; split; [reflexivity|]. unfold ping_period. lia.
      * destruct (after_not_open r h Hr) as (A & _ & _ & D).
        unfold timer_matches in *. rewrite A, D.
        destruct r; try congruence; destruct (readyState h); auto.
  - destruct (after_quiet (JsonMessage m) h eq_refl) as (A & B & C & _).
    unfold timer_matches in *. rewrite A, B, C. exact I.
  - rewrite after_millisecond. unfold timer_matches in *.
    destruct h as [tl pt cs lm rs lj pi t w].
    cbn [readyState pingInterval now] in *.
    destruct rs; try (cbn in I; subst pi; reflexivity).
    destruct I as (due & -> & Hd).
    destruct (Z.leb_spec due (t + 1)); cbn;
      eexists; (split; [reflexivity|]); unfold ping_period in *; lia.
  - destruct (after_send msg h) as (A & B & C & _).
    unfold timer_matches in *. rewrite A, B, C. exact I.
Qed.

Lemma timer_matches_mount (rs : ReadyState) (t : Z) (h : hook) :
  mount rs t = Normal h -> timer_matches h.
Proof.
  destruct rs; cbv [mount first_render message_effect lastJsonMessage ToBoolean
                    bind readyState_effects status_effect subscribe_effect
                    readyState send_json]; cbn;
    intros E; injection E as <-; unfold timer_matches; cbn; try reflexivity.
  eexists; split; [reflexivity|]. unfold ping_period. lia.
Qed.

Lemma Reachable_timer_matches (h : hook) :
  Reachable h -> timer_matches h.
Proof.
  induction 1 as [rs t h E | e h _ IH].
  - exact (timer_matches_mount rs t h E).
  - apply timer_matches_after. exact IH.
Qed.



(** Not connected and with no interval armed, the hook sends nothing
    until a render shows the socket open. *)
Lemma silent_until_open (es : list event) (h : hook) :
  readyState h <> OPEN ->
  pingInterval h = None ->
  forallb (fun e => negb (opens e)) es = true ->
  wire (run es h) = wire h.
Proof.
  revert h. induction es as [|e es IH]; intros h Hrs Hpi Hes; [reflexivity|].
  cbn [forallb] in Hes. apply andb_prop in Hes. destruct Hes as [He Hes].
  cbn [run fold_left]. fold (run es (after e h)).
  assert (K : readyState (after e h) <> OPEN /\
              pingInterval (after e h) = None /\
              wire (after e h) = wire h).
  { destruct e as [| | err | r | m | | msg].
    - destruct (after_quiet CallOnOpen h eq_refl) as (A & B & _ & D).
      rewrite A, B, D. auto.
    - destruct (after_quiet CallOnClose h eq_refl) as (A & B & _ & D).
      rewrite A, B, D. auto.
    - destruct (after_quiet (CallOnError err) h eq_refl) as (A & B & _ & D).
      rewrite A, B, D. auto.
    - assert (Hr : r <> OPEN) by (intros ->; discriminate).
      destruct (after_not_open r h Hr) as (A & B & _ & D).
      rewrite A, B, D. repeat split; auto.
      destruct (readyState h); auto.
    - destruct (after_quiet (JsonMessage m) h eq_refl) as (A & B & _ & D).
      rewrite A, B, D. auto.
    - rewrite after_millisecond, Hpi. destruct h; cbn in *. auto.
    - rewrite (dropped_send msg h Hrs). auto. }
  destruct K as (K1 & K2 & K3).
  rewrite (IH _ K1 K2 Hes). exact K3.
Qed.

Lemma repeat_succ {A : Type} (x : A) (q : Z) :
  0 <= q ->
  repeat x (Z.to_nat (q + 1)) = repeat x (Z.to_nat q) ++ [x].
Proof.
  intros Hq. rewrite Z2Nat.inj_add by lia.
  rewrite repeat_app. reflexivity.
Qed.

Ltac fields :=
  cbn [timeline pendingTickets connectionStatus lastMessage readyState
       lastJsonMessage pingInterval now wire
       setTimeline setPendingTickets setConnectionStatus setLastMessage
       with_readyState with_lastJsonMessage with_pingInterval with_now
       lib_sendMessage] in *.

(** While the hook stays connected and only the clock, the callbacks and
    the inbound frames act, the interval fires at every whole period
    counted from [t1], and nothing else is sent. *)
Lemma heartbeat_cadence (es : list event) :
  forall (h : hook) (t1 q : Z) (w : list value),
    forallb (fun e => negb (is_render e || is_send e)) es = true ->
    readyState h = OPEN ->
    0 <= q ->
    ping_period * q <= now h - t1 < ping_period * (q + 1) ->
    pingInterval h = Some (t1 + ping_period * (q + 1)) ->
    wire h = w ++ repeat ping_frame (Z.to_nat q) ->
    exists q',
      0 <= q' /\
      ping_period * q' <= now (run es h) - t1 < ping_period * (q' + 1) /\
      readyState (run es h) = OPEN /\
      pingInterval (run es h) = Some (t1 + ping_period * (q' + 1)) /\
      wire (run es h) = w ++ repeat ping_frame (Z.to_nat q') /\
      now (run es h) = now h + elapsed es.
Proof.
  induction es as [|e es IH]; intros h t1 q w Hes Hrs Hq Hnow Hpi Hw.
  - exists q. cbn [run fold_left elapsed]. destruct Hnow.
    repeat split; try assumption; lia.
  - cbn [forallb] in Hes. apply andb_prop in Hes. destruct Hes as [He Hes].
    cbn [run fold_left]. fold (run es (after e h)).
    destruct e as [| | err | r | m | | msg]; try discriminate.
    + destruct (after_quiet CallOnOpen h eq_refl) as (A & B & C & D).
      destruct (IH (after CallOnOpen h) t1 q w Hes) as (q' & R); try congruence.
      exists q'. cbn [elapsed]. rewrite <- C. exact R.
    + destruct (after_quiet CallOnClose h eq_refl) as (A & B & C & D).
      destruct (IH (after CallOnClose h) t1 q w Hes) as (q' & R); try congruence.
      exists q'. cbn [elapsed]. rewrite <- C. exact R.
    + destruct (after_quiet (CallOnError err) h eq_refl) as (A & B & C & D).
      destruct (IH (after (CallOnError err) h) t1 q w Hes) as (q' & R);
        try congruence.
      exists q'. cbn [elapsed]. rewrite <- C. exact R.
    + destruct (after_quiet (JsonMessage m) h eq_refl) as (A & B & C & D).
      destruct (IH (after (JsonMessage m) h) t1 q w Hes) as (q' & R);
        try congruence.
      exists q'. cbn [elapsed]. rewrite <- C. exact R.
    + pose proof (after_millisecond h) as E. rewrite Hpi in E.
      revert E.
      destruct (Z.leb_spec (t1 + ping_period * (q + 1)) (now h + 1)) as [Hdue|Hdue];
        intros E.
      * destruct (IH (after Millisecond h) t1 (q + 1) w Hes) as (q' & R).
        -- rewrite E. destruct h; exact Hrs.
        -- lia.
        -- rewrite E. destruct h; fields. unfold ping_period in *. lia.
        -- rewrite E. destruct h; fields. unfold ping_period; f_equal; lia.
        -- rewrite E. destruct h; fields. rewrite Hw, repeat_succ by lia.
           rewrite app_assoc. reflexivity.
        -- exists q'. cbn [elapsed].
           replace (now h + (1 + elapsed es))
             with (now (after Millisecond h) + elapsed es).
           ++ exact R.
           ++ rewrite E. destruct h; fields. lia.
      * destruct (IH (after Millisecond h) t1 q w Hes) as (q' & R).
        -- rewrite E. destruct h; exact Hrs.
        -- lia.
        -- rewrite E. destruct h; fields. unfold ping_period in *. lia.
        -- rewrite E. destruct h; fields. exact Hpi.
        -- rewrite E. destruct h; fields. exact Hw.
        -- exists q'. cbn [elapsed].
           replace (now h + (1 + elapsed es))
             with (now (after Millisecond h) + elapsed es).
           ++ exact R.
           ++ rewrite E. destruct h; fields. lia.
Qed.

(** From the render that connects the hook: [n] milliseconds later,
    with only the clock, the callbacks and inbound frames in between,
    the wire holds the subscription and then one heartbeat per whole
    period elapsed. *)
Lemma connected_wire (h : hook) (es : list event) :
  readyState h <> OPEN ->
  forallb (fun e => negb (is_render e || is_send e)) es = true ->
  readyState (run es (after (ReadyStateIs OPEN) h)) = OPEN /\
  wire (run es (after (ReadyStateIs OPEN) h)) =
    (wire h ++ [subscribe_frame])
    ++ repeat ping_frame (Z.to_nat (elapsed es / ping_period)).
Proof.
  intros Hrs Hes. rewrite (after_open h Hrs).
  set (h1 := with_pingInterval _ _).
  destruct (heartbeat_cadence es h1 (now h1) 0 (wire h ++ [subscribe_frame]) Hes)
    as (q' & Hq' & Hnow & Hr & _ & Hw & Hel).
  - reflexivity.
  - lia.
  - unfold ping_period. lia.
  - subst h1. destruct h; fields. unfold ping_period; f_equal; lia.
  - subst h1. destruct h; fields. rewrite app_nil_r. reflexivity.
  - split; [exact Hr|]. rewrite Hw.
    rewrite Hel in Hnow. unfold ping_period in *.
    replace (elapsed es / 30000) with q'; [reflexivity|].
    apply (Z.div_unique_pos _ _ _ (elapsed es - 30000 * q')); lia.
Qed.

(** ** The heartbeat *)

Lemma Reachable_run (es : list event) (h : hook) :
  Reachable h -> Reachable (run es h).
Proof.
  revert h. induction es as [|e es IH]; intros h HR; [exact HR|].
  cbn [run fold_left]. fold (run es (after e h)).
  apply IH. apply Reachable_step. exact HR.
Qed.

(** C2, as the code has it: the heartbeat follows the ready state, not
    the status string. In every state of a mounted hook, (1) while
    [readyState] is [OPEN] the heartbeat interval is armed, its next
    firing at most 30000 ms away; (2) from the render in which
    [readyState] becomes [OPEN], with only the clock, the callbacks and
    inbound frames acting, the hook has sent after the subscription
    exactly one frame [{type: "ping"}] per whole 30000 ms elapsed;
    (3) while [readyState] is not [OPEN] no interval is armed and
    nothing is sent until a render shows the socket open again; (4) a
    render with any ready state other than [OPEN] (a close) stops the
    interval, and no ping follows it; (5) where the status string
    mirrors the ready state, a status other than [Connected] means no
    interval and no ping. *)
Theorem heartbeat_only_while_connected (h : hook) :
  Reachable h ->
  (readyState h = OPEN ->
   exists due, pingInterval h = Some due /\ now h < due <= now h + 30000) /\
  (readyState h <> OPEN ->
   forall es,
     forallb (fun e => negb (is_render e || is_send e)) es = true ->
     wire (run es (after (ReadyStateIs OPEN) h)) =
       (wire h ++
        [VObject [("type", VString "subscribe");
                  ("subscriptions",
                   VArray [VString "timeline_updates";
                           VString "pending_tickets_updates";
                           VString "ticket_updates"])]])
       ++ repeat (VObject [("type", VString "ping")])
            (Z.to_nat (elapsed es / 30000))) /\
  (readyState h <> OPEN ->
   pingInterval h = None /\
   forall es,
     forallb (fun e => negb (opens e)) es = true ->
     wire (run es h) = wire h) /\
  (forall r, r <> OPEN ->
   pingInterval (after (ReadyStateIs r) h) = None /\
   forall es,
     forallb (fun e => negb (opens e)) es = true ->
     wire (run es (after (ReadyStateIs r) h)) = wire h) /\
  (connectionStatus h = connectionStatusMap (readyState h) ->
   connectionStatus h <> "Connected" ->
   pingInterval h = None /\
   forall es,
     forallb (fun e => negb (opens e)) es = true ->
     wire (run es h) = wire h).
Proof.
  intros HR. pose proof (Reachable_timer_matches h HR) as I.
  unfold timer_matches in I.
  assert (P3 : readyState h <> OPEN ->
               pingInterval h = None /\
               forall es,
                 forallb (fun e => negb (opens e)) es = true ->
                 wire (run es h) = wire h).
  { intros Hrs.
    assert (Hpi : pingInterval h = None)
      by (destruct (readyState h); congruence).
    split; [exact Hpi|]. intros es Hes.
    apply silent_until_open; assumption. }
  split; [|split; [|split; [|split]]].
  - intros Hrs. rewrite Hrs in I. exact I.
  - intros Hrs es Hes. exact (proj2 (connected_wire h es Hrs Hes)).
  - exact P3.
  - intros r Hr. destruct (after_not_open r h Hr) as (A & B & _ & D).
    assert (Hpi : pingInterval (after (ReadyStateIs r) h) = None).
    { rewrite D. destruct (readyState h); try exact I. reflexivity. }
    split; [exact Hpi|]. intros es Hes.
    rewrite silent_until_open; [exact B| congruence | exact Hpi | exact Hes].
  - intros E N. apply P3.
    pose proof (status_not_connected h E N) as Hc. unfold isConnected in Hc.
    intros Ho. rewrite Ho in Hc. discriminate.
Qed.

Lemma heartbeat_only_while_connected_witness :
  let h0 := first_render CONNECTING 0 in
  let h1 := after (ReadyStateIs OPEN) h0 in
  (exists due, pingInterval h1 = Some due /\ now h1 < due <= now h1 + 30000) /\
  wire (run (repeat Millisecond (Z.to_nat 60000)) h1) =
    (wire h0 ++
     [VObject [("type", VString "subscribe");
               ("subscriptions",
                VArray [VString "timeline_updates";
                        VString "pending_tickets_updates";
                        VString "ticket_updates"])]])
    ++ repeat (VObject [("type", VString "ping")])
         (Z.to_nat (elapsed (repeat Millisecond (Z.to_nat 60000)) / 30000)) /\
  pingInterval h0 = None /\
  pingInterval (after (ReadyStateIs CLOSED) h1) = None /\
  wire (run [Millisecond; CallSendMessage VNull; Millisecond]
          (after (ReadyStateIs CLOSED) h1))
    = wire h1.
Proof.
  intros h0 h1.
  assert (R0 : Reachable h0)
    by (apply (Reachable_mount CONNECTING 0); reflexivity).
  assert (R1 : Reachable h1) by (apply Reachable_step; exact R0).
  destruct (heartbeat_only_while_connected h0 R0) as (_ & A2 & A3 & _ & _).
  destruct (heartbeat_only_while_connected h1 R1) as (B1 & _ & _ & B4 & _).
  split; [exact (B1 eq_refl)|].
  split.
  { apply (A2 ltac:(discriminate) (repeat Millisecond (Z.to_nat 60000))).
    vm_compute. reflexivity. }
  split; [exact (proj1 (A3 ltac:(discriminate)))|].
  destruct (B4 CLOSED ltac:(discriminate)) as [Hpi Hw].
  split; [exact Hpi|].
  exact (Hw [Millisecond; CallSendMessage VNull; Millisecond] eq_refl).
Defined.

(** C2 read on the status string fails: after [onError] the
    status is [Error] while [readyState] is still [OPEN] (lines 23-26
    set the one and not the other), the interval is still armed, and at
    30000 ms after the connecting render a ping goes out. *)
Lemma heartbeat_sent_while_status_is_Error :
  let h := run ([ReadyStateIs OPEN;
                 CallOnError (VObject [("type", VString "error")])]
                ++ repeat Millisecond (Z.to_nat 29999))
             (first_render CONNECTING 0) in
  Reachable h /\
  connectionStatus h = "Error" /\
  connectionStatus h <> "Connected" /\
  readyState h = OPEN /\
  wire (after Millisecond h) = wire h ++ [VObject [("type", VString "ping")]].
Proof.
  intros h. split.
  - subst h. apply Reachable_run.
    apply (Reachable_mount CONNECTING 0). reflexivity.
  - vm_compute. repeat split. discriminate.
Qed.

(** Two periods after the connecting render two heartbeats have gone
    out, the first one at 30000 ms and not before. *)
Example heartbeat_at_30000 :
  let h1 := after (ReadyStateIs OPEN) (first_render CONNECTING 0) in
  wire (run (repeat Millisecond (Z.to_nat 29999)) h1) = [subscribe_frame] /\
  wire (run (repeat Millisecond (Z.to_nat 30000)) h1) = [subscribe_frame; ping_frame] /\
  wire (run (repeat Millisecond (Z.to_nat 60000)) h1)
    = [subscribe_frame; ping_frame; ping_frame].
Proof. vm_compute. repeat split. Qed.

(** ** The subscription *)



(** ** Reconnection *)

Import ConnectionManager.

Lemma render_returns (r : ReadyState) (h : hook) :
  step (ReadyStateIs r) h = Normal (after (ReadyStateIs r) h).
Proof.
  unfold after. step_cases h. destruct rs, r; reflexivity.
Qed.

Lemma millisecond_returns (h : hook) :
  step Millisecond h = Normal (after Millisecond h).
Proof.
  unfold after. step_cases h.
  destruct pi as [due|]; [destruct (due <=? t + 1)|]; reflexivity.
Qed.

(** What the manager's handlers come to, in terms of the hook's events. *)
Lemma next_opened (m : manager) :
  next Opened m =
  with_client (after (ReadyStateIs OPEN) (after CallOnOpen (client m))) m.
Proof.
  unfold next, handle, opened.
  change (render_readyState OPEN (onOpen (client m)))
    with (step (ReadyStateIs OPEN) (after CallOnOpen (client m))).
  rewrite render_returns. reflexivity.
Qed.

Lemma next_closed (error : option value) (closeEvent : value) (m : manager) :
  next (Closed error closeEvent) m =
  let c0 := match error with
            | Some err => after (CallOnError err) (client m)
            | None => client m
            end in
  let c := after (ReadyStateIs CLOSED) (after CallOnClose c0) in
  if reconnectCount m <? reconnectAttempts
  then mkManager c (reconnectCount m) (Some (now c + reconnectInterval))
         (attempts m)
  else with_client c m.
Proof.
  unfold next, handle, closed. cbv zeta.
  match goal with
  | |- context [render_readyState CLOSED (onClose ?c)] =>
      change (render_readyState CLOSED (onClose c))
        with (step (ReadyStateIs CLOSED) (after CallOnClose c))
  end.
  rewrite render_returns. cbn [bind shouldReconnect andb].
  destruct error; destruct (reconnectCount m <? reconnectAttempts); reflexivity.
Qed.

Lemma next_elapse (m : manager) :
  next Elapse m =
  let c := after Millisecond (client m) in
  match reconnectTimer m with
  | Some due =>
      if due <=? now c
      then mkManager (after (ReadyStateIs CONNECTING) c)
             (reconnectCount m + 1) None
             (attempts m ++ [now (after (ReadyStateIs CONNECTING) c)])
      else with_client c m
  | None => with_client c m
  end.
Proof.
  unfold next, handle, elapse.
  change (millisecond (client m)) with (step Millisecond (client m)).
  rewrite millisecond_returns. cbn [bind]. cbv zeta.
  cbn [with_client reconnectTimer].
  destruct (reconnectTimer m) as [due|]; [|reflexivity].
  destruct (due <=? now (after Millisecond (client m))); [|reflexivity].
  unfold reconnect. cbn [client with_client reconnectCount attempts].
  change (render_readyState CONNECTING (after Millisecond (client m)))
    with (step (ReadyStateIs CONNECTING) (after Millisecond (client m))).
  rewrite render_returns. reflexivity.
Qed.

Lemma next_frame (f : value) (m : manager) :
  next (Frame f) m = with_client (after (JsonMessage f) (client m)) m.
Proof.
  unfold next, handle.
  change (render_lastJsonMessage f (client m))
    with (step (JsonMessage f) (client m)).
  rewrite after_message. reflexivity.
Qed.

Lemma next_send (message : value) (m : manager) :
  next (Send message) m =
  with_client (after (CallSendMessage message) (client m)) m.
Proof.
  unfold next, handle, after.
  change (sendMessage message (client m))
    with (step (CallSendMessage message) (client m)).
  destruct (step (CallSendMessage message) (client m)); cbn [bind].
  - reflexivity.
  - destruct m; reflexivity.
Qed.

(** The manager drives its hook through the hook's own events. *)
Lemma Live_client_Reachable (m : manager) :
  Live m -> Reachable (client m).
Proof.
  induction 1 as [t m E | e m _ IH].
  - unfold connect in E.
    destruct (mount CONNECTING t) as [c|] eqn:Em; [|discriminate].
    cbn [bind] in E. injection E as <-.
    exact (Reachable_mount CONNECTING t c Em).
  - destruct e as [| error closeEvent | f | | message].
    + rewrite next_opened. cbn [client with_client].
      do 2 apply Reachable_step. exact IH.
    + rewrite next_closed. cbv zeta.
      assert (R : Reachable
                    (after (ReadyStateIs CLOSED)
                       (after CallOnClose
                          match error with
                          | Some err => after (CallOnError err) (client m)
                          | None => client m
                          end))).
      { do 2 apply Reachable_step.
        destruct error; [apply Reachable_step|]; exact IH. }
      destruct (reconnectCount m <? reconnectAttempts); exact R.
    + rewrite next_frame. apply Reachable_step. exact IH.
    + rewrite next_elapse. cbv zeta.
      assert (R : Reachable (after Millisecond (client m)))
        by (apply Reachable_step; exact IH).
      destruct (reconnectTimer m) as [due|]; [|exact R].
      destruct (due <=? now (after Millisecond (client m))); [|exact R].
      cbn [client]. apply Reachable_step. exact R.
    + rewrite next_send. apply Reachable_step. exact IH.
Qed.

(** The attempts made are counted, never exceed the limit, and a timer
    is pending only while an attempt is left. *)
Lemma Live_bounded (m : manager) :
  Live m ->
  Z.of_nat (List.length (attempts m)) = reconnectCount m /\
  reconnectCount m <= reconnectAttempts /\
  (forall due, reconnectTimer m = Some due ->
               reconnectCount m < reconnectAttempts).
Proof.
  induction 1 as [t m E | e m _ (IH1 & IH2 & IH3)].
  - unfold connect in E.
    destruct (mount CONNECTING t) as [c|]; [|discriminate].
    cbn [bind] in E. injection E as <-. cbn.
    unfold reconnectAttempts. repeat split; try lia; try discriminate.
  - destruct e as [| error closeEvent | f | | message].
    + rewrite next_opened. cbn [with_client attempts reconnectCount reconnectTimer].
      exact (conj IH1 (conj IH2 IH3)).
    + rewrite next_closed. cbv zeta.
      destruct (Z.ltb_spec (reconnectCount m) reconnectAttempts) as [Hlt|Hge].
      * cbn [attempts reconnectCount reconnectTimer]. repeat split; auto.
      * cbn [with_client attempts reconnectCount reconnectTimer].
        exact (conj IH1 (conj IH2 IH3)).
    + rewrite next_frame. cbn [with_client attempts reconnectCount reconnectTimer].
      exact (conj IH1 (conj IH2 IH3)).
    + rewrite next_elapse. cbv zeta.
      destruct (reconnectTimer m) as [due|] eqn:Et.
      * destruct (due <=? now (after Millisecond (client m))).
        -- cbn [attempts reconnectCount reconnectTimer].
           specialize (IH3 due eq_refl).
           rewrite List.length_app, Nat2Z.inj_add. cbn [List.length].
           repeat split; try lia; try discriminate.
        -- cbn [with_client attempts reconnectCount reconnectTimer].
           rewrite Et. exact (conj IH1 (conj IH2 IH3)).
      * cbn [with_client attempts reconnectCount reconnectTimer].
        rewrite Et. exact (conj IH1 (conj IH2 IH3)).
    + rewrite next_send. cbn [with_client attempts reconnectCount reconnectTimer].
      exact (conj IH1 (conj IH2 IH3)).
Qed.

Lemma play_app (es1 es2 : list socket_event) (m : manager) :
  play (es1 ++ es2) m = play es2 (play es1 m).
Proof. unfold play. apply fold_left_app. Qed.

(** A millisecond moves the clock and leaves the status alone. *)
Lemma millisecond_fields (h : hook) :
  now (after Millisecond h) = now h + 1 /\
  readyState (after Millisecond h) = readyState h /\
  connectionStatus (after Millisecond h) = connectionStatus h /\
  (pingInterval h = None ->
   pingInterval (after Millisecond h) = None /\
   wire (after Millisecond h) = wire h).
Proof.
  rewrite after_millisecond. destruct h as [tl pt cs lm rs lj pi t w]. fields.
  destruct pi as [due|]; [destruct (due <=? t + 1)|]; fields;
    repeat split; intros; discriminate.
Qed.

(** While the reconnection timer is not due, time only passes. *)
Lemma waiting (n : nat) :
  forall (m : manager) (due : Z),
    reconnectTimer m = Some due ->
    pingInterval (client m) = None ->
    now (client m) + Z.of_nat n < due ->
    let m' := play (repeat Elapse n) m in
    reconnectTimer m' = Some due /\
    reconnectCount m' = reconnectCount m /\
    attempts m' = attempts m /\
    now (client m') = now (client m) + Z.of_nat n /\
    readyState (client m') = readyState (client m) /\
    connectionStatus (client m') = connectionStatus (client m) /\
    pingInterval (client m') = None /\
    wire (client m') = wire (client m).
Proof.
  induction n as [|n IH]; intros m due Ht Hpi Hn; cbv zeta.
  - cbn [repeat play fold_left]. repeat split; try assumption. cbn. lia.
  - cbn [repeat play fold_left]. fold (play (repeat Elapse n) (next Elapse m)).
    destruct (millisecond_fields (client m)) as (A & B & C & D).
    destruct (D Hpi) as (D1 & D2).
    assert (E : next Elapse m = with_client (after Millisecond (client m)) m).
    { rewrite next_elapse. cbv zeta. rewrite Ht.
      destruct (Z.leb_spec due (now (after Millisecond (client m)))); [lia|].
      reflexivity. }
    rewrite E.
    destruct (IH (with_client (after Millisecond (client m)) m) due)
      as (I1 & I2 & I3 & I4 & I5 & I6 & I7 & I8).
    + exact Ht.
    + exact D1.
    + cbn [client with_client]. lia.
    + cbn [client with_client reconnectCount attempts] in *.
      repeat split; try congruence. lia.
Qed.

Lemma close_fields (c : hook) :
  let c' := after (ReadyStateIs CLOSED) (after CallOnClose c) in
  connectionStatus c' = "Disconnected" /\
  readyState c' = CLOSED /\
  now c' = now c /\
  wire c' = wire c.
Proof. step_cases c. destruct rs; cbn; repeat split. Qed.

Lemma connecting_fields (c : hook) :
  readyState c = CLOSED ->
  let c' := after (ReadyStateIs CONNECTING) c in
  connectionStatus c' = "Connecting" /\
  readyState c' = CONNECTING /\
  now c' = now c /\
  wire c' = wire c.
Proof. intros Hrs. step_cases c. cbn in Hrs. subst rs. cbn. repeat split. Qed.

(** Once the attempts are used up no event brings another one. *)
Lemma exhausted_is_terminal (es : list socket_event) :
  forall m : manager,
    Live m ->
    reconnectCount m = reconnectAttempts ->
    attempts (play es m) = attempts m /\
    reconnectCount (play es m) = reconnectAttempts.
Proof.
  induction es as [|e es IH]; intros m HL Hc; [split; [reflexivity|exact Hc]|].
  cbn [play fold_left]. fold (play es (next e m)).
  assert (K : attempts (next e m) = attempts m /\
              reconnectCount (next e m) = reconnectCount m).
  { destruct (Live_bounded m HL) as (_ & _ & Ht).
    destruct e as [| error closeEvent | f | | message].
    - rewrite next_opened. split; reflexivity.
    - rewrite next_closed. cbv zeta.
      destruct (reconnectCount m <? reconnectAttempts); split; reflexivity.
    - rewrite next_frame. split; reflexivity.
    - rewrite next_elapse. cbv zeta.
      destruct (reconnectTimer m) as [due|].
      + specialize (Ht due eq_refl). lia.
      + split; reflexivity.
    - rewrite next_send. split; reflexivity. }
  destruct K as [Ka Kc].
  destruct (IH (next e m) (Live_next e m HL)) as [Ia Ic]; [congruence|].
  split; congruence.
Qed.

(** When the reconnection timer comes due the attempt is made, and the
    socket opening after it makes the hook subscribe again. *)
Lemma attempt_after_delay (n : nat) (m1 : manager) (due : Z) :
  reconnectTimer m1 = Some due ->
  pingInterval (client m1) = None ->
  readyState (client m1) = CLOSED ->
  now (client m1) + Z.of_nat n + 1 = due ->
  let m2 := play (repeat Elapse (S n)) m1 in
  attempts m2 = attempts m1 ++ [due] /\
  connectionStatus (client m2) = "Connecting" /\
  connectionStatus (client (next Opened m2)) = "Connected" /\
  wire (client (next Opened m2)) = wire (client m1) ++ [subscribe_frame].
Proof.
  intros F4 Hpi F2 Hdue. cbv zeta.
  replace (repeat Elapse (S n)) with (repeat Elapse n ++ [Elapse])
    by (symmetry; apply (repeat_cons n Elapse)).
  rewrite play_app. cbn [play fold_left].
  destruct (waiting n m1 _ F4 Hpi)
    as (W1 & W2 & W3 & W4 & W5 & W6 & W7 & W8); [lia|].
  fold (play (repeat Elapse n) m1).
  set (mw := play (repeat Elapse n) m1) in *.
  destruct (millisecond_fields (client mw)) as (A & B & C & D).
  destruct (D W7) as (D1 & D2).
  assert (Hrs : readyState (after Millisecond (client mw)) = CLOSED) by congruence.
  destruct (connecting_fields _ Hrs) as (G1 & G2 & G3 & G4).
  assert (E : next Elapse mw =
              mkManager (after (ReadyStateIs CONNECTING)
                           (after Millisecond (client mw)))
                (reconnectCount mw + 1) None
                (attempts mw ++ [due])).
  { rewrite next_elapse. cbv zeta. rewrite W1.
    destruct (Z.leb_spec due (now (after Millisecond (client mw)))); [|lia].
    f_equal. f_equal. f_equal. lia. }
  rewrite E. cbn [attempts client].
  split; [rewrite W3; reflexivity|]. split; [exact G1|].
  rewrite next_opened. cbn [client with_client].
  set (c2 := after (ReadyStateIs CONNECTING) (after Millisecond (client mw))) in *.
  assert (Hne : readyState (after CallOnOpen c2) <> OPEN).
  { destruct (after_quiet CallOnOpen c2 eq_refl) as (Q & _). rewrite Q, G2.
    discriminate. }
  rewrite (after_open _ Hne). fields. split; [reflexivity|].
  destruct (after_quiet CallOnOpen c2 eq_refl) as (_ & _ & _ & Q).
  rewrite Q, G4, D2, W8. reflexivity.
Qed.

(** C4 (on the Connection Manager as the specification describes it,
    with the options the hook passes): for every state of a connection
    instance, (1) at most 10 reconnection attempts have been made, and
    (2) once 10 have been made no event brings another; (3) while an
    attempt is left, a closure, clean or abnormal, sets the status to
    [Disconnected] and schedules one attempt exactly 3000 ms later:
    until then no attempt is made and the status stays, at 3000 ms the
    attempt is made and the status is [Connecting]; and when the socket
    then opens the status is [Connected] and the frame
    [{type: "subscribe", subscriptions: ["timeline_updates",
    "pending_tickets_updates", "ticket_updates"]}], and nothing else,
    has been sent since the closure. *)
Theorem reconnection_bounded_fixed_delay (m : manager) :
  Live m ->
  Z.of_nat (List.length (attempts m)) <= 10 /\
  (reconnectCount m = 10 -> forall es, attempts (play es m) = attempts m) /\
  (forall error closeEvent,
     reconnectCount m < 10 ->
     let m1 := next (Closed error closeEvent) m in
     connectionStatus (client m1) = "Disconnected" /\
     reconnectTimer m1 = Some (now (client m1) + 3000) /\
     (forall k, 0 <= k < 3000 ->
        attempts (play (repeat Elapse (Z.to_nat k)) m1) = attempts m /\
        connectionStatus (client (play (repeat Elapse (Z.to_nat k)) m1))
          = "Disconnected") /\
     let m2 := play (repeat Elapse (Z.to_nat 3000)) m1 in
     attempts m2 = attempts m ++ [now (client m1) + 3000] /\
     connectionStatus (client m2) = "Connecting" /\
     let m3 := next Opened m2 in
     connectionStatus (client m3) = "Connected" /\
     wire (client m3) =
       wire (client m) ++
       [VObject [("type", VString "subscribe");
                 ("subscriptions",
                  VArray [VString "timeline_updates";
                          VString "pending_tickets_updates";
                          VString "ticket_updates"])]]).
Proof.
  intros HL. destruct (Live_bounded m HL) as (B1 & B2 & B3).
  split; [unfold reconnectAttempts in B2; lia|]. split.
  { intros Hc es. exact (proj1 (exhausted_is_terminal es m HL Hc)). }
  intros error closeEvent Hlt. cbv zeta.
  set (m1 := next (Closed error closeEvent) m).
  assert (HL1 : Live m1) by (apply Live_next; exact HL).
  pose proof (Reachable_timer_matches _ (Live_client_Reachable m1 HL1)) as TM.
  assert (F : connectionStatus (client m1) = "Disconnected" /\
              readyState (client m1) = CLOSED /\
              wire (client m1) = wire (client m) /\
              reconnectTimer m1 = Some (now (client m1) + 3000) /\
              attempts m1 = attempts m).
  { subst m1. rewrite next_closed. cbv zeta.
    destruct (Z.ltb_spec (reconnectCount m) reconnectAttempts) as [_|Hge];
      [|unfold reconnectAttempts in Hge; lia].
    cbn [client reconnectTimer attempts].
    match goal with
    | |- context [after (ReadyStateIs CLOSED) (after CallOnClose ?c)] =>
        destruct (close_fields c) as (C1 & C2 & C3 & C4);
        assert (W : wire c = wire (client m))
          by (destruct error; [destruct (client m)|]; reflexivity)
    end.
    repeat split; try assumption. congruence. }
  destruct F as (F1 & F2 & F3 & F4 & F5).
  assert (Hpi : pingInterval (client m1) = None).
  { unfold timer_matches in TM. rewrite F2 in TM. exact TM. }
  split; [exact F1|]. split; [exact F4|]. split.
  { intros k Hk.
    destruct (waiting (Z.to_nat k) m1 _ F4 Hpi) as (_ & _ & W3 & _ & _ & W6 & _);
      [lia|]. split; congruence. }
  replace (Z.to_nat 3000) with (S (Z.to_nat 2999)) by lia.
  destruct (attempt_after_delay (Z.to_nat 2999) m1 _ F4 Hpi F2)
    as (A1 & A2 & A3 & A4); [lia|].
  split; [rewrite A1, F5; reflexivity|]. split; [exact A2|].
  split; [exact A3|]. rewrite A4, F3. reflexivity.
Qed.

Lemma reconnection_bounded_fixed_delay_witness :
  let m := mkManager (first_render CONNECTING 0) 0 None [] in
  let m1 := next (Closed (Some VNull) VNull) m in
  Live m /\
  connectionStatus (client m1) = "Disconnected" /\
  reconnectTimer m1 = Some (now (client m1) + 3000) /\
  (forall k, 0 <= k < 3000 ->
     attempts (play (repeat Elapse (Z.to_nat k)) m1) = attempts m /\
     connectionStatus (client (play (repeat Elapse (Z.to_nat k)) m1))
       = "Disconnected") /\
  let m2 := play (repeat Elapse (Z.to_nat 3000)) m1 in
  attempts m2 = attempts m ++ [now (client m1) + 3000] /\
  connectionStatus (client m2) = "Connecting" /\
  let m3 := next Opened m2 in
  connectionStatus (client m3) = "Connected" /\
  wire (client m3) =
    wire (client m) ++
    [VObject [("type", VString "subscribe");
                 ("subscriptions",
                  VArray [VString "timeline_updates";
                          VString "pending_tickets_updates";
                          VString "ticket_updates"])]].
Proof.
  intros m m1.
  assert (L : Live m) by (apply (Live_connect 0); reflexivity).
  split; [exact L|].
  apply (proj2 (proj2 (reconnection_bounded_fixed_delay m L)) (Some VNull) VNull).
  reflexivity.
Defined.

(** Twelve closures, each followed by the full delay and none by an
    opening: ten attempts are made, 3000 ms after each of the first ten
    closures, and the status ends as [Disconnected]. *)
Example ten_attempts_then_none :
  let m := mkManager (first_render CONNECTING 0) 0 None [] in
  let failure := Closed (Some VNull) VNull :: repeat Elapse (Z.to_nat 3000) in
  let m' := play (List.concat (repeat failure 12)) m in
  attempts m' = [3000; 6000; 9000; 12000; 15000;
                 18000; 21000; 24000; 27000; 30000] /\
  connectionStatus (client m') = "Disconnected" /\
  timeline (client m') = VArray [].
Proof. vm_compute. repeat split. Qed.

(** * Further properties of the hook and of its consumer *)

(** ** The socket's address *)

Lemma replace_absent (pattern replacement s : string) :
  includes pattern s = false ->
  String_replace pattern replacement s = s.
Proof.
  induction s as [|c s IH]; intros H; cbn [includes] in H;
    apply orb_false_elim in H; destruct H as [Hp Hs];
    cbn [String_replace]; rewrite Hp; [reflexivity|].
  rewrite (IH Hs). reflexivity.
Qed.

Lemma prefix_append (p r : string) : String.prefix p (p ++ r) = true.
Proof.
  induction p as [|c p IH]; cbn [append String.prefix].
  - destruct r; reflexivity.
  - destruct (Ascii.ascii_dec c c); [exact IH|congruence].
Qed.

Lemma drop_append (p r : string) : drop (String.length p) (p ++ r) = r.
Proof. induction p as [|c p IH]; [reflexivity|exact IH]. Qed.

Lemma replace_at_start (p replacement r : string) :
  String_replace p replacement (p ++ r) = (replacement ++ r)%string.
Proof.
  assert (E : forall s, String.prefix p s = true ->
                        String_replace p replacement s =
                        (replacement ++ drop (String.length p) s)%string).
  { intros s H. destruct s; cbn [String_replace]; rewrite H; reflexivity. }
  rewrite (E _ (prefix_append p r)), drop_append. reflexivity.
Qed.

(** X1: a base address [http://rest] gives the socket address
    [ws://rest/ws/tickets], provided [rest] holds no [https://] for the
    second replacement to catch. *)
Theorem socketUrl_http (rest : string) :
  includes "https://" rest = false ->
  socketUrl ("http://" ++ rest) = ("ws://" ++ rest ++ "/ws/tickets")%string.
Proof.
  intros H. unfold socketUrl.
  rewrite replace_at_start.
  change (String_replace "https://" "wss://" ("ws://" ++ rest)%string)
    with ("ws://" ++ String_replace "https://" "wss://" rest)%string.
  rewrite (replace_absent _ _ _ H). reflexivity.
Qed.

Lemma socketUrl_http_witness :
  socketUrl ("http://" ++ "localhost:8002")
  = ("ws://" ++ "localhost:8002" ++ "/ws/tickets")%string.
Proof. apply (socketUrl_http "localhost:8002"). reflexivity. Defined.

(** X2: a base address [https://rest] gives [wss://rest/ws/tickets],
    provided [rest] holds no [http://]: the first replacement does not
    touch the [https://] scheme. *)
Theorem socketUrl_https (rest : string) :
  includes "http://" rest = false ->
  socketUrl ("https://" ++ rest) = ("wss://" ++ rest ++ "/ws/tickets")%string.
Proof.
  intros H. unfold socketUrl.
  change (String_replace "http://" "ws://" ("https://" ++ rest)%string)
    with ("https://" ++ String_replace "http://" "ws://" rest)%string.
  rewrite (replace_absent _ _ _ H), replace_at_start. reflexivity.
Qed.

Lemma socketUrl_https_witness :
  socketUrl ("https://" ++ "msp.example.com")
  = ("wss://" ++ "msp.example.com" ++ "/ws/tickets")%string.
Proof. apply (socketUrl_https "msp.example.com"). reflexivity. Defined.

(** X3: a base address that holds neither [http://] nor [https://] is
    used as it is: the socket address is the base followed by
    [/ws/tickets], with no [ws] scheme put in front. *)
Theorem socketUrl_without_scheme (base : string) :
  includes "http://" base = false ->
  includes "https://" base = false ->
  socketUrl base = (base ++ "/ws/tickets")%string.
Proof.
  intros H1 H2. unfold socketUrl.
  rewrite (replace_absent _ _ _ H1), (replace_absent _ _ _ H2). reflexivity.
Qed.

Lemma socketUrl_without_scheme_witness :
  socketUrl "/api" = ("/api" ++ "/ws/tickets")%string.
Proof. apply (socketUrl_without_scheme "/api"); reflexivity. Defined.

(** X4: with [VITE_API_URL] undefined or empty, the socket address is
    [ws://localhost:8002/ws/tickets] in every mode but [production],
    where it is the relative [/api/ws/tickets]; a non-empty
    [VITE_API_URL] is the base whatever the mode. *)
Theorem socketUrl_of_environment (MODE : string) :
  (forall url, url <> "" -> API_BASE_URL (Some url) MODE = url) /\
  API_BASE_URL (Some "") MODE = API_BASE_URL None MODE /\
  socketUrl (API_BASE_URL None MODE) =
    if (MODE =? "production")%string
    then "/api/ws/tickets" else "ws://localhost:8002/ws/tickets".
Proof.
  split; [|split].
  - intros url Hne. unfold API_BASE_URL.
    destruct (String.eqb_spec url ""); [contradiction|reflexivity].
  - reflexivity.
  - unfold API_BASE_URL. destruct (MODE =? "production")%string; reflexivity.
Qed.

Lemma socketUrl_of_environment_witness :
  API_BASE_URL (Some "https://msp.example.com") "production"
  = "https://msp.example.com".
Proof.
  apply (proj1 (socketUrl_of_environment "production") "https://msp.example.com").
  discriminate.
Defined.

(** ** The dispatcher, case by case *)

(** X5: a [timeline_update] frame sets the timeline to its [timeline]
    member when that is truthy, an array or not, and keeps the old
    timeline otherwise; it never changes the pending tickets, even when
    it carries a [pending_tickets] member; and it is the last message. *)
Theorem timeline_update_case (m : value) (h : hook) :
  Get m "type" = VString "timeline_update" ->
  timeline (after (JsonMessage m) h) =
    (if ToBoolean (Get m "timeline") then Get m "timeline" else timeline h) /\
  pendingTickets (after (JsonMessage m) h) = pendingTickets h /\
  lastMessage (after (JsonMessage m) h) = m.
Proof.
  intros Hty.
  rewrite (after_message_truthy m h (truthy_of_type _ _ Hty)). cbv zeta.
  rewrite Hty. cbn [is_string String.eqb Ascii.eqb Bool.eqb].
  destruct (ToBoolean (Get m "timeline")); repeat split.
Qed.

Lemma timeline_update_case_witness :
  let m := VObject [("type", VString "timeline_update");
                    ("timeline", VString "not an array");
                    ("pending_tickets", VArray [VString "ignored"])] in
  let h := first_render OPEN 0 in
  timeline (after (JsonMessage m) h) =
    (if ToBoolean (Get m "timeline") then Get m "timeline" else timeline h) /\
  pendingTickets (after (JsonMessage m) h) = pendingTickets h /\
  lastMessage (after (JsonMessage m) h) = m.
Proof.
  intros m h. apply (timeline_update_case m h). reflexivity.
Defined.

(** X6: an [initial_data] frame sets the timeline and the pending
    tickets independently, each to its member when that is truthy and to
    its old value otherwise. *)
Theorem initial_data_case (m : value) (h : hook) :
  Get m "type" = VString "initial_data" ->
  timeline (after (JsonMessage m) h) =
    (if ToBoolean (Get m "timeline") then Get m "timeline" else timeline h) /\
  pendingTickets (after (JsonMessage m) h) =
    (if ToBoolean (Get m "pending_tickets")
     then Get m "pending_tickets" else pendingTickets h) /\
  lastMessage (after (JsonMessage m) h) = m.
Proof.
  intros Hty.
  rewrite (after_message_truthy m h (truthy_of_type _ _ Hty)). cbv zeta.
  rewrite Hty. cbn [is_string String.eqb Ascii.eqb Bool.eqb].
  destruct (ToBoolean (Get m "timeline"));
    destruct (ToBoolean (Get m "pending_tickets")); repeat split.
Qed.

Lemma initial_data_case_witness :
  let m := VObject [("type", VString "initial_data");
                    ("pending_tickets", VArray [VString "t"])] in
  let h := setTimeline (VArray [VString "kept"]) (first_render OPEN 0) in
  timeline (after (JsonMessage m) h) =
    (if ToBoolean (Get m "timeline") then Get m "timeline" else timeline h) /\
  pendingTickets (after (JsonMessage m) h) =
    (if ToBoolean (Get m "pending_tickets")
     then Get m "pending_tickets" else pendingTickets h) /\
  lastMessage (after (JsonMessage m) h) = m.
Proof.
  intros m h. apply (initial_data_case m h). reflexivity.
Defined.

(** X7: a [ticket_update], [connection_established] or [error] frame
    changes neither the timeline nor the pending tickets, whatever
    [timeline] and [pending_tickets] members it carries; it only becomes
    the last message. *)
Theorem informational_frames (m : value) (h : hook) :
  Get m "type" = VString "ticket_update" \/
  Get m "type" = VString "connection_established" \/
  Get m "type" = VString "error" ->
  timeline (after (JsonMessage m) h) = timeline h /\
  pendingTickets (after (JsonMessage m) h) = pendingTickets h /\
  lastMessage (after (JsonMessage m) h) = m.
Proof.
  intros Hty.
  assert (Hm : ToBoolean m = true)
    by (destruct Hty as [E|[E|E]]; exact (truthy_of_type _ _ E)).
  rewrite (after_message_truthy m h Hm). cbv zeta.
  destruct Hty as [E|[E|E]]; rewrite E;
    cbn [is_string String.eqb Ascii.eqb Bool.eqb]; repeat split.
Qed.

Lemma informational_frames_witness :
  let m := VObject [("type", VString "error");
                    ("message", VString "boom");
                    ("timeline", VArray [VString "ignored"])] in
  let h := first_render OPEN 0 in
  timeline (after (JsonMessage m) h) = timeline h /\
  pendingTickets (after (JsonMessage m) h) = pendingTickets h /\
  lastMessage (after (JsonMessage m) h) = m.
Proof.
  intros m h. apply (informational_frames m h). right; right; reflexivity.
Defined.

Lemma pending_tickets_update_fields (m : value) (h : hook) :
  Get m "type" = VString "pending_tickets_update" ->
  timeline (after (JsonMessage m) h) = timeline h /\
  pendingTickets (after (JsonMessage m) h) =
    (if ToBoolean (Get m "pending_tickets")
     then Get m "pending_tickets" else pendingTickets h).
Proof.
  intros Hty.
  rewrite (after_message_truthy m h (truthy_of_type _ _ Hty)). cbv zeta.
  rewrite Hty. cbn [is_string String.eqb Ascii.eqb Bool.eqb].
  destruct (ToBoolean (Get m "pending_tickets")); repeat split.
Qed.

(** X8: after any sequence of [pending_tickets_update] frames the
    timeline is what it was before the sequence, and when the last
    frame carries an array of tickets the pending tickets are that
    array. *)
Theorem pending_tickets_last_frame_wins (h : hook) (frames : list value)
    (m : value) (tickets : list value) :
  Forall (fun f => Get f "type" = VString "pending_tickets_update") frames ->
  Get m "type" = VString "pending_tickets_update" ->
  Get m "pending_tickets" = VArray tickets ->
  pendingTickets (run (map JsonMessage (frames ++ [m])) h) = VArray tickets /\
  timeline (run (map JsonMessage (frames ++ [m])) h) = timeline h.
Proof.
  intros Hfs Hty Hp.
  rewrite map_app, run_app. cbn [map run fold_left].
  destruct (pending_tickets_update_fields m (run (map JsonMessage frames) h) Hty)
    as [Ht Hq].
  rewrite Ht, Hq, Hp. cbn [ToBoolean]. split; [reflexivity|].
  clear Ht Hq. revert h.
  induction Hfs as [|f frames Hf _ IH]; intros h; [reflexivity|].
  cbn [map run fold_left]. fold (run (map JsonMessage frames) (after (JsonMessage f) h)).
  rewrite IH. exact (proj1 (pending_tickets_update_fields f h Hf)).
Qed.

Lemma pending_tickets_last_frame_wins_witness :
  let f := VObject [("type", VString "pending_tickets_update");
                    ("pending_tickets", VArray [VString "a"]);
                    ("timeline", VArray [VString "ignored"])] in
  let m := VObject [("type", VString "pending_tickets_update");
                    ("pending_tickets", VArray [])] in
  let h := setTimeline (VArray [VString "kept"]) (first_render OPEN 0) in
  pendingTickets (run (map JsonMessage ([f] ++ [m])) h) = VArray [] /\
  timeline (run (map JsonMessage ([f] ++ [m])) h) = timeline h.
Proof.
  intros f m h. apply (pending_tickets_last_frame_wins h [f] m []).
  - repeat constructor.
  - reflexivity.
  - reflexivity.
Defined.

Lemma lastMessage_after_message (m : value) (h : hook) :
  lastMessage (after (JsonMessage m) h) =
  if ToBoolean m then m else lastMessage h.
Proof.
  destruct (ToBoolean m) eqn:Hm.
  - rewrite (after_message_truthy m h Hm). cbv zeta. split_ifs; reflexivity.
  - rewrite (after_message_falsy m h Hm). reflexivity.
Qed.

(** X9: after any sequence of inbound messages, of any type and shape,
    [lastMessage] is the last truthy one of them, or what it was if none
    is truthy: a message [null], [false], [0] or [""] is not recorded. *)
Theorem lastMessage_is_last_truthy (frames : list value) (h : hook) :
  lastMessage (run (map JsonMessage frames) h) =
  last_truthy frames (lastMessage h).
Proof.
  revert h. induction frames as [|m frames IH]; intros h; [reflexivity|].
  cbn [map run fold_left]. fold (run (map JsonMessage frames) (after (JsonMessage m) h)).
  rewrite IH, lastMessage_after_message. reflexivity.
Qed.

(** ** Sending while connected *)

(** X10: while the hook is connected, [sendMessage(message)] hands the
    frame to the library and changes nothing else when the message
    holds no BigInt; when it holds one, anywhere inside,
    [JSON.stringify] throws a [TypeError] and nothing is sent. *)
Theorem send_when_open (message : value) (h : hook) :
  readyState h = OPEN ->
  (serializable message = true ->
   step (CallSendMessage message) h = Normal (lib_sendMessage message h) /\
   wire (after (CallSendMessage message) h) = wire h ++ [message] /\
   timeline (after (CallSendMessage message) h) = timeline h /\
   pendingTickets (after (CallSendMessage message) h) = pendingTickets h /\
   connectionStatus (after (CallSendMessage message) h) = connectionStatus h) /\
  (serializable message = false ->
   step (CallSendMessage message) h = Throw TypeError /\
   after (CallSendMessage message) h = h).
Proof.
  intros Hrs.
  pose proof (send_when_connected message h Hrs) as E.
  split; intros Hs; rewrite Hs in E; unfold after; rewrite E.
  - destruct h; repeat split.
  - split; reflexivity.
Qed.

Lemma send_when_open_witness :
  let h := after (ReadyStateIs OPEN) (first_render CONNECTING 0) in
  (wire (after (CallSendMessage (VObject [("type", VString "subscribe")])) h)
     = wire h ++ [VObject [("type", VString "subscribe")]]) /\
  step (CallSendMessage (VArray [VNull; VObject [("n", VBigInt 1)]])) h
    = Throw TypeError.
Proof.
  intros h.
  assert (Hrs : readyState h = OPEN) by reflexivity.
  split.
  - exact (proj1 (proj2 (proj1 (send_when_open
                                   (VObject [("type", VString "subscribe")])
                                   h Hrs) eq_refl))).
  - exact (proj1 (proj2 (send_when_open
                           (VArray [VNull; VObject [("n", VBigInt 1)]])
                           h Hrs) eq_refl)).
Defined.

(** ** What the hook puts on the wire *)

(** What one event other than a consumer's send appends to the wire, and
    the ready state it leaves. *)
Lemma wire_step (e : event) (h : hook) :
  is_send e = false ->
  wire (after e h) =
    wire h ++
    match e with
    | ReadyStateIs r =>
        if negb (ReadyState_eqb (readyState h) r) && ReadyState_eqb r OPEN
        then [subscribe_frame] else []
    | Millisecond =>
        match pingInterval h with
        | Some due => if due <=? now h + 1 then [ping_frame] else []
        | None => []
        end
    | _ => []
    end /\
  readyState (after e h) =
    match e with
    | ReadyStateIs r => r
    | _ => readyState h
    end.
Proof.
  intros He. destruct e as [| | err | r | m | | msg]; try discriminate.
  - destruct (after_quiet CallOnOpen h eq_refl) as (A & _ & _ & D).
    rewrite A, D, app_nil_r. split; reflexivity.
  - destruct (after_quiet CallOnClose h eq_refl) as (A & _ & _ & D).
    rewrite A, D, app_nil_r. split; reflexivity.
  - destruct (after_quiet (CallOnError err) h eq_refl) as (A & _ & _ & D).
    rewrite A, D, app_nil_r. split; reflexivity.
  - step_cases h. destruct rs, r; cbn; rewrite ?app_nil_r; split; reflexivity.
  - destruct (after_quiet (JsonMessage m) h eq_refl) as (A & _ & _ & D).
    rewrite A, D, app_nil_r. split; reflexivity.
  - rewrite after_millisecond. destruct h as [tl pt cs lm rs lj pi t w]. fields.
    destruct pi as [due|]; [destruct (due <=? t + 1)|]; fields;
      rewrite ?app_nil_r; split; reflexivity.
Qed.

(** X11: as long as the consumer does not call [sendMessage], every
    frame the hook has handed to the library since it was mounted is the
    subscription frame or the heartbeat frame. *)
Theorem wire_holds_subscriptions_and_pings (rs : ReadyState) (t : Z)
    (h : hook) (es : list event) :
  mount rs t = Normal h ->
  forallb (fun e => negb (is_send e)) es = true ->
  Forall (fun f => f = subscribe_frame \/ f = ping_frame) (wire (run es h)).
Proof.
  intros Hm Hes.
  assert (H0 : Forall (fun f => f = subscribe_frame \/ f = ping_frame) (wire h)).
  { destruct rs; cbv in Hm; injection Hm as <-; cbn [wire];
      repeat constructor. }
  clear Hm. revert h H0.
  induction es as [|e es IH]; intros h H0; [exact H0|].
  cbn [forallb] in Hes. apply andb_prop in Hes. destruct Hes as [He Hes].
  cbn [run fold_left]. fold (run es (after e h)).
  apply (IH Hes).
  assert (Hs : is_send e = false) by (destruct (is_send e); [discriminate|reflexivity]).
  rewrite (proj1 (wire_step e h Hs)). apply Forall_app. split; [exact H0|].
  destruct e as [| | err | r | m | | msg].
  - constructor.
  - constructor.
  - constructor.
  - destruct (negb (ReadyState_eqb (readyState h) r) && ReadyState_eqb r OPEN);
      repeat constructor.
  - constructor.
  - destruct (pingInterval h) as [due|]; [destruct (due <=? now h + 1)|];
      try constructor; [right; reflexivity|constructor].
  - discriminate.
Qed.

Lemma wire_holds_subscriptions_and_pings_witness :
  Forall (fun f => f = subscribe_frame \/ f = ping_frame)
    (wire (run [ReadyStateIs OPEN; Millisecond; CallOnClose;
                ReadyStateIs CLOSED; ReadyStateIs CONNECTING;
                ReadyStateIs OPEN]
             (first_render CONNECTING 0))).
Proof.
  apply (wire_holds_subscriptions_and_pings CONNECTING 0); reflexivity.
Defined.

(** X12: through any run without a consumer's send, the subscription
    frames on the wire grow by exactly one for each render in which the
    ready state becomes [OPEN]: one per connection, never two, and none
    for a render that leaves the ready state as it is. *)
Theorem one_subscription_per_connection (es : list event) (h : hook) :
  forallb (fun e => negb (is_send e)) es = true ->
  List.length (filter is_subscribe (wire (run es h))) =
  (List.length (filter is_subscribe (wire h)) + connections (readyState h) es)%nat.
Proof.
  revert h. induction es as [|e es IH]; intros h Hes.
  - cbn [run fold_left connections]. rewrite Nat.add_0_r. reflexivity.
  - cbn [forallb] in Hes. apply andb_prop in Hes. destruct Hes as [He Hes].
    cbn [run fold_left]. fold (run es (after e h)).
    assert (Hs : is_send e = false)
      by (destruct (is_send e); [discriminate|reflexivity]).
    destruct (wire_step e h Hs) as [Hw Hr].
    rewrite (IH _ Hes), Hw, Hr, filter_app, List.length_app.
    destruct e as [| | err | r | m | | msg]; try discriminate;
      cbn [connections filter List.length]; try lia.
    + destruct (negb (ReadyState_eqb (readyState h) r) && ReadyState_eqb r OPEN);
        cbn [filter]; change (is_subscribe subscribe_frame) with true;
        cbn [List.length]; lia.
    + destruct (pingInterval h) as [due|]; [destruct (due <=? now h + 1)|];
        cbn [filter]; change (is_subscribe ping_frame) with false;
        cbn [List.length]; lia.
Qed.

Lemma one_subscription_per_connection_witness :
  List.length
    (filter is_subscribe
       (wire (run [ReadyStateIs OPEN; ReadyStateIs OPEN; CallOnClose;
                   ReadyStateIs CLOSED; ReadyStateIs CONNECTING;
                   ReadyStateIs OPEN]
                (first_render CONNECTING 0))))
  = (List.length (filter is_subscribe (wire (first_render CONNECTING 0))) + 2)%nat.
Proof.
  apply (one_subscription_per_connection
           [ReadyStateIs OPEN; ReadyStateIs OPEN; CallOnClose;
            ReadyStateIs CLOSED; ReadyStateIs CONNECTING; ReadyStateIs OPEN]
           (first_render CONNECTING 0)).
  reflexivity.
Defined.

(** ** The status string *)

Lemma status_known_after (e : event) (h : hook) :
  status_known h -> status_known (after e h).
Proof.
  unfold status_known, callback_status. intros I.
  destruct e as [| | err | r | m | | msg].
  - right. destruct h; cbn. auto.
  - right. destruct h; cbn. auto.
  - right. destruct h; cbn. auto.
  - destruct (ReadyState_eqb_spec (readyState h) r) as [<- | Hne].
    + rewrite after_same_readyState. exact I.
    + left. step_cases h. fields. destruct rs, r; try congruence; reflexivity.
  - destruct (message_frame m h) as (A & B & _). rewrite A, B. exact I.
  - destruct (millisecond_fields h) as (_ & A & B & _). rewrite A, B. exact I.
  - step_cases h. fields.
    destruct rs; try destruct (serializable msg); exact I.
Qed.

Lemma Reachable_status_known (h : hook) :
  Reachable h -> status_known h.
Proof.
  induction 1 as [rs t h E | e h _ IH].
  - left. destruct rs; cbv in E; injection E as <-; reflexivity.
  - apply status_known_after. exact IH.
Qed.

(** X13: in every state of a mounted hook the status is one of the six
    strings [Connecting], [Connected], [Closing], [Disconnected],
    [Uninstantiated] and [Error]; it is the string of the current ready
    state unless a callback has set [Connected], [Disconnected] or
    [Error] since. *)
Theorem connectionStatus_is_enumerated (h : hook) :
  Reachable h ->
  In (connectionStatus h)
     ["Connecting"; "Connected"; "Closing"; "Disconnected";
      "Uninstantiated"; "Error"] /\
  (connectionStatus h = connectionStatusMap (readyState h) \/
   In (connectionStatus h) ["Connected"; "Disconnected"; "Error"]).
Proof.
  intros HR. pose proof (Reachable_status_known h HR) as I.
  split; [|exact I].
  destruct I as [E | I].
  - rewrite E. destruct (readyState h); cbn; auto 10.
  - cbn in I. cbn. intuition auto.
Qed.

Lemma connectionStatus_is_enumerated_witness :
  In (connectionStatus
        (run [ReadyStateIs OPEN; CallOnError VNull] (first_render CONNECTING 0)))
     ["Connecting"; "Connected"; "Closing"; "Disconnected";
      "Uninstantiated"; "Error"].
Proof.
  apply (connectionStatus_is_enumerated
           (run [ReadyStateIs OPEN; CallOnError VNull] (first_render CONNECTING 0))).
  cbn [run fold_left]. do 2 apply Reachable_step.
  apply (Reachable_mount CONNECTING 0). reflexivity.
Defined.

Lemma status_after_render (h : hook) (r : ReadyState) :
  readyState h <> r ->
  connectionStatus (after (ReadyStateIs r) h) = connectionStatusMap r /\
  readyState (after (ReadyStateIs r) h) = r.
Proof.
  intros Hne. step_cases h. fields.
  destruct rs, r; try congruence; split; reflexivity.
Qed.

(** X14: a render in which the ready state changed leaves the status
    equal to the string of the new ready state, whatever the callbacks
    had set: an [Error] does not outlive it, and the status is
    [Connected] exactly when [isConnected] holds. *)
Theorem status_mirrors_readyState (h : hook) (rs : ReadyState) :
  readyState h <> rs ->
  let h' := after (ReadyStateIs rs) h in
  connectionStatus h' = connectionStatusMap rs /\
  connectionStatus h' <> "Error" /\
  (connectionStatus h' = "Connected" <-> isConnected h' = true).
Proof.
  intros Hne h'. subst h'.
  destruct (status_after_render h rs Hne) as [E R].
  unfold isConnected. rewrite E, R.
  split; [reflexivity|]. split.
  - destruct rs; discriminate.
  - destruct rs; split; intros H; try reflexivity; discriminate.
Qed.

Lemma status_mirrors_readyState_witness :
  let h := after (CallOnError VNull)
             (after (ReadyStateIs OPEN) (first_render CONNECTING 0)) in
  let h' := after (ReadyStateIs CLOSED) h in
  connectionStatus h = "Error" /\
  connectionStatus h' = connectionStatusMap CLOSED /\
  connectionStatus h' <> "Error" /\
  (connectionStatus h' = "Connected" <-> isConnected h' = true).
Proof.
  intros h h'. split; [reflexivity|].
  apply (status_mirrors_readyState h CLOSED). discriminate.
Defined.

(** ** The dashboard's connection indicator *)

(** X15: in every state of a mounted hook the dashboard's indicator
    shows one of six texts, and it shows [Real-time updates active]
    exactly when the status is [Connected]. *)
Theorem indicator_texts (h : hook) :
  Reachable h ->
  In (indicator_text h)
     ["Connection: Connecting"; "Real-time updates active";
      "Connection: Closing"; "Connection: Disconnected";
      "Connection: Uninstantiated"; "Connection: Error"] /\
  (indicator_text h = "Real-time updates active" <->
   connectionStatus h = "Connected").
Proof.
  intros HR.
  assert (S6 : In (connectionStatus h)
                 ["Connecting"; "Connected"; "Closing"; "Disconnected";
                  "Uninstantiated"; "Error"]).
  { destruct (Reachable_status_known h HR) as [E | I].
    - rewrite E. destruct (readyState h); cbn; auto 10.
    - cbn in I. cbn. intuition auto. }
  unfold indicator_text. cbn [In] in S6.
  destruct S6 as [E|[E|[E|[E|[E|[E|[]]]]]]]; rewrite <- E;
    (split; [cbn; auto 10 | split; intros H; try reflexivity; discriminate]).
Qed.

Lemma indicator_texts_witness :
  let h := run [ReadyStateIs OPEN; CallOnClose] (first_render CONNECTING 0) in
  In (indicator_text h)
     ["Connection: Connecting"; "Real-time updates active";
      "Connection: Closing"; "Connection: Disconnected";
      "Connection: Uninstantiated"; "Connection: Error"] /\
  (indicator_text h = "Real-time updates active" <->
   connectionStatus h = "Connected").
Proof.
  intros h. apply (indicator_texts h).
  subst h. cbn [run fold_left]. do 2 apply Reachable_step.
  apply (Reachable_mount CONNECTING 0). reflexivity.
Defined.

(** X16: right after a render in which the ready state changed, the
    indicator's class and its text agree: the class is [connected]
    exactly when the text is [Real-time updates active], and for a ready
    state other than [OPEN] the text names that state. *)
Theorem indicator_agrees_after_render (h : hook) (rs : ReadyState) :
  readyState h <> rs ->
  let h' := after (ReadyStateIs rs) h in
  (indicator_class h' = "connected" <->
   indicator_text h' = "Real-time updates active") /\
  (rs <> OPEN ->
   indicator_class h' = "disconnected" /\
   indicator_text h' = ("Connection: " ++ connectionStatusMap rs)%string).
Proof.
  intros Hne h'. subst h'.
  destruct (status_after_render h rs Hne) as [E R].
  unfold indicator_class, indicator_text, isConnected. rewrite E, R.
  destruct rs; (split; [split; intros H; try reflexivity; discriminate|]);
    intros Hr; try congruence; split; reflexivity.
Qed.

Lemma indicator_agrees_after_render_witness :
  let h' := after (ReadyStateIs CLOSING)
              (after (ReadyStateIs OPEN) (first_render CONNECTING 0)) in
  indicator_class h' = "disconnected" /\
  indicator_text h' = ("Connection: " ++ connectionStatusMap CLOSING)%string.
Proof.
  intros h'.
  apply (proj2 (indicator_agrees_after_render
                  (after (ReadyStateIs OPEN) (first_render CONNECTING 0))
                  CLOSING ltac:(discriminate))).
  discriminate.
Defined.

(** ** The dashboard's status badge *)

Lemma prefix_empty (s : string) : String.prefix "" s = true.
Proof. destruct s; reflexivity. Qed.

Lemma toUpperCase_append (a b : string) :
  toUpperCase (a ++ b) = (toUpperCase a ++ toUpperCase b)%string.
Proof.
  induction a as [|c a IH]; [reflexivity|].
  cbn [append toUpperCase]. rewrite IH. reflexivity.
Qed.

Lemma replace_first_underscore (s1 s2 : string) :
  includes "_" s1 = false ->
  String_replace "_" " " (s1 ++ "_" ++ s2) = (s1 ++ " " ++ s2)%string.
Proof.
  induction s1 as [|c s1 IH]; intros H.
  - exact (replace_at_start "_" " " s2).
  - cbn [includes] in H. apply orb_false_elim in H. destruct H as [Hp Hs].
    change ((String c s1 ++ "_" ++ s2)%string)
      with (String c (s1 ++ "_" ++ s2)%string).
    cbn [String_replace]. cbn [String.prefix] in Hp |- *.
    destruct (Ascii.ascii_dec "_"%char c) as [Hc|Hc].
    + rewrite prefix_empty in Hp. discriminate.
    + rewrite (IH Hs). reflexivity.
Qed.

Lemma upper_char_underscore (c : Ascii.ascii) :
  (if Ascii.ascii_dec "_"%char (upper_char c) then true else false) =
  (if Ascii.ascii_dec "_"%char c then true else false).
Proof.
  destruct c as [[] [] [] [] [] [] [] []]; vm_compute; reflexivity.
Qed.

Lemma includes_underscore_toUpperCase (s : string) :
  includes "_" (toUpperCase s) = includes "_" s.
Proof.
  induction s as [|c s IH]; [reflexivity|].
  cbn [toUpperCase includes String.prefix]. rewrite IH, !prefix_empty.
  pose proof (upper_char_underscore c) as E.
  destruct (Ascii.ascii_dec "_"%char (upper_char c)), (Ascii.ascii_dec "_"%char c);
    try reflexivity; discriminate.
Qed.

Lemma includes_underscore_after_space (u v : string) :
  includes "_" u = false ->
  includes "_" (u ++ " " ++ v) = includes "_" v.
Proof.
  induction u as [|c u IH]; intros H.
  - reflexivity.
  - cbn [includes] in H. apply orb_false_elim in H. destruct H as [Hp Hs].
    change ((String c u ++ " " ++ v)%string)
      with (String c (u ++ " " ++ v)%string).
    cbn [includes]. rewrite (IH Hs).
    cbn [String.prefix] in Hp |- *.
    destruct (Ascii.ascii_dec "_"%char c); [|reflexivity].
    rewrite prefix_empty in Hp. discriminate.
Qed.

(** X17: for an entry whose status is an ASCII string with an
    underscore, the badge shows the status in upper case with its first
    underscore, and only that one, turned into a space: the underscores
    after it stay. *)
Theorem status_badge_first_underscore (entry : value) (s1 s2 : string) :
  Get entry "status" = VString (s1 ++ "_" ++ s2) ->
  is_ascii (s1 ++ "_" ++ s2) = true ->
  includes "_" s1 = false ->
  status_badge entry = Normal (toUpperCase s1 ++ " " ++ toUpperCase s2)%string /\
  includes "_" (toUpperCase s1 ++ " " ++ toUpperCase s2) = includes "_" s2.
Proof.
  intros Hst _ H1. unfold status_badge. rewrite Hst.
  rewrite (replace_first_underscore s1 s2 H1), !toUpperCase_append.
  split; [reflexivity|].
  rewrite <- (includes_underscore_toUpperCase s2).
  rewrite <- (includes_underscore_toUpperCase s1) in H1.
  apply includes_underscore_after_space. exact H1.
Qed.

Lemma status_badge_first_underscore_witness :
  status_badge (VObject [("ticket_id", VNull);
                         ("status", VString ("needs" ++ "_" ++ "human_approval"))])
    = Normal (toUpperCase "needs" ++ " " ++ toUpperCase "human_approval")%string /\
  includes "_" (toUpperCase "needs" ++ " " ++ toUpperCase "human_approval")
    = includes "_" "human_approval".
Proof.
  apply (status_badge_first_underscore
           (VObject [("ticket_id", VNull);
                     ("status", VString ("needs" ++ "_" ++ "human_approval"))])
           "needs" "human_approval"); reflexivity.
Defined.

(** X18: the hook stores the entries of a [timeline_update] frame
    unchecked: when one of them has no string for a status, the timeline
    holds it all the same, and computing its badge throws a
    [TypeError]. *)
Theorem unchecked_entry_breaks_badge (m : value) (h : hook)
    (entries : list value) (entry : value) :
  Get m "type" = VString "timeline_update" ->
  Get m "timeline" = VArray entries ->
  In entry entries ->
  (forall s, Get entry "status" <> VString s) ->
  timeline (after (JsonMessage m) h) = VArray entries /\
  status_badge entry = Throw TypeError.
Proof.
  intros Hty Hp Hin Hst. split.
  - rewrite <- Hp. apply timeline_update_replaces; [exact Hty|].
    rewrite Hp. reflexivity.
  - unfold status_badge. destruct (Get entry "status"); try reflexivity.
    exfalso. exact (Hst _ eq_refl).
Qed.

Lemma unchecked_entry_breaks_badge_witness :
  let entry := VObject [("ticket_id", VNull); ("title", VString "T")] in
  let m := VObject [("type", VString "timeline_update");
                    ("timeline", VArray [entry])] in
  timeline (after (JsonMessage m) (first_render OPEN 0)) = VArray [entry] /\
  status_badge entry = Throw TypeError.
Proof.
  intros entry m.
  apply (unchecked_entry_breaks_badge m (first_render OPEN 0) [entry] entry).
  - reflexivity.
  - reflexivity.
  - left; reflexivity.
  - intros s. discriminate.
Defined.

(** ** The heartbeat under traffic *)

Lemma heartbeat_schedule (es : list event) :
  forall (h : hook) (t1 q : Z),
    forallb (fun e => negb (is_render e)) es = true ->
    readyState h = OPEN ->
    0 <= q ->
    ping_period * q <= now h - t1 < ping_period * (q + 1) ->
    pingInterval h = Some (t1 + ping_period * (q + 1)) ->
    exists q',
      0 <= q' /\
      ping_period * q' <= now (run es h) - t1 < ping_period * (q' + 1) /\
      readyState (run es h) = OPEN /\
      pingInterval (run es h) = Some (t1 + ping_period * (q' + 1)) /\
      now (run es h) = now h + elapsed es.
Proof.
  induction es as [|e es IH]; intros h t1 q Hes Hrs Hq Hnow Hpi.
  - exists q. cbn [run fold_left elapsed]. destruct Hnow.
    repeat split; try assumption; lia.
  - cbn [forallb] in Hes. apply andb_prop in Hes. destruct Hes as [He Hes].
    cbn [run fold_left]. fold (run es (after e h)).
    assert (Q : forall e', elapsed (e' :: es) = elapsed es ->
                readyState (after e' h) = readyState h ->
                pingInterval (after e' h) = pingInterval h ->
                now (after e' h) = now h ->
                exists q',
                  0 <= q' /\
                  ping_period * q' <= now (run es (after e' h)) - t1
                    < ping_period * (q' + 1) /\
                  readyState (run es (after e' h)) = OPEN /\
                  pingInterval (run es (after e' h))
                    = Some (t1 + ping_period * (q' + 1)) /\
                  now (run es (after e' h)) = now h + elapsed (e' :: es)).
    { intros e' El A B C.
      destruct (IH (after e' h) t1 q Hes) as (q' & R); try congruence.
      exists q'. rewrite El, <- C. exact R. }
    destruct e as [| | err | r | m | | msg]; try discriminate.
    + destruct (after_quiet CallOnOpen h eq_refl) as (A & B & C & _).
      apply Q; auto.
    + destruct (after_quiet CallOnClose h eq_refl) as (A & B & C & _).
      apply Q; auto.
    + destruct (after_quiet (CallOnError err) h eq_refl) as (A & B & C & _).
      apply Q; auto.
    + destruct (after_quiet (JsonMessage m) h eq_refl) as (A & B & C & _).
      apply Q; auto.
    + clear Q. pose proof (after_millisecond h) as E. rewrite Hpi in E.
      revert E.
      destruct (Z.leb_spec (t1 + ping_period * (q + 1)) (now h + 1)) as [Hdue|Hdue];
        intros E.
      * destruct (IH (after Millisecond h) t1 (q + 1) Hes) as (q' & R).
        -- rewrite E. destruct h; exact Hrs.
        -- lia.
        -- rewrite E. destruct h; fields. unfold ping_period in *. lia.
        -- rewrite E. destruct h; fields. unfold ping_period; f_equal; lia.
        -- exists q'. cbn [elapsed].
           replace (now h + (1 + elapsed es))
             with (now (after Millisecond h) + elapsed es).
           ++ exact R.
           ++ rewrite E. destruct h; fields. lia.
      * destruct (IH (after Millisecond h) t1 q Hes) as (q' & R).
        -- rewrite E. destruct h; exact Hrs.
        -- lia.
        -- rewrite E. destruct h; fields. unfold ping_period in *. lia.
        -- rewrite E. destruct h; fields. exact Hpi.
        -- exists q'. cbn [elapsed].
           replace (now h + (1 + elapsed es))
             with (now (after Millisecond h) + elapsed es).
           ++ exact R.
           ++ rewrite E. destruct h; fields. lia.
    + destruct (after_send msg h) as (A & B & C & _).
      apply Q; auto.
Qed.

(** X19: from the render that connects the hook and for as long as the
    ready state stays, the next heartbeat is due at the next whole
    multiple of 30000 ms after that render, whatever frames arrive and
    whatever the consumer sends in between: traffic neither postpones
    nor advances a heartbeat. *)
Theorem heartbeat_keeps_its_schedule (h : hook) (es : list event) :
  readyState h <> OPEN ->
  forallb (fun e => negb (is_render e)) es = true ->
  let h1 := after (ReadyStateIs OPEN) h in
  readyState (run es h1) = OPEN /\
  now (run es h1) = now h + elapsed es /\
  pingInterval (run es h1) =
    Some (now h + 30000 * (elapsed es / 30000 + 1)).
Proof.
  intros Hrs Hes h1. subst h1. rewrite (after_open h Hrs).
  set (h1 := with_pingInterval _ _).
  destruct (heartbeat_schedule es h1 (now h) 0 Hes)
    as (q' & Hq' & Hnow & Hr & Hpi & Hel).
  - reflexivity.
  - lia.
  - subst h1. destruct h; fields. unfold ping_period. lia.
  - subst h1. destruct h; fields. unfold ping_period; f_equal; lia.
  - assert (N : now h1 = now h) by (subst h1; destruct h; reflexivity).
    rewrite N in Hel. split; [exact Hr|]. split; [exact Hel|].
    rewrite Hpi. rewrite Hel in Hnow. unfold ping_period in *.
    replace (elapsed es / 30000) with q'; [reflexivity|].
    apply (Z.div_unique_pos _ _ _ (elapsed es - 30000 * q')); lia.
Qed.

Lemma heartbeat_keeps_its_schedule_witness :
  let es := [Millisecond; JsonMessage (VObject [("type", VString "error")]);
             CallSendMessage (VObject [("type", VString "ping")]);
             Millisecond] in
  let h1 := after (ReadyStateIs OPEN) (first_render CONNECTING 0) in
  readyState (run es h1) = OPEN /\
  now (run es h1) = now (first_render CONNECTING 0) + elapsed es /\
  pingInterval (run es h1) =
    Some (now (first_render CONNECTING 0) + 30000 * (elapsed es / 30000 + 1)).
Proof.
  intros es.
  apply (heartbeat_keeps_its_schedule (first_render CONNECTING 0) es).
  - discriminate.
  - reflexivity.
Defined.

(** ** The collections as the dashboard reads them *)

(** After an event each collection is its old value or a truthy member
    of the message the event delivered. *)
Lemma collections_after_event (e : event) (h : hook) :
  (timeline (after e h) = timeline h \/
   exists m, e = JsonMessage m /\
             timeline (after e h) = Get m "timeline" /\
             ToBoolean (Get m "timeline") = true) /\
  (pendingTickets (after e h) = pendingTickets h \/
   exists m, e = JsonMessage m /\
             pendingTickets (after e h) = Get m "pending_tickets" /\
             ToBoolean (Get m "pending_tickets") = true).
Proof.
  destruct (is_message e) eqn:He.
  - destruct e as [| | err | r | m | | msg]; try discriminate.
    destruct (ToBoolean m) eqn:Hm.
    + rewrite (after_message_truthy m h Hm). cbv zeta.
      destruct (ToBoolean (Get m "timeline")) eqn:Et;
        destruct (ToBoolean (Get m "pending_tickets")) eqn:Ep;
        split_ifs; split;
        solve [left; reflexivity | right; exists m; auto].
    + rewrite (after_message_falsy m h Hm). split; left; reflexivity.
  - destruct (no_frame_keeps_views e h He) as (A & B & _).
    split; left; assumption.
Qed.

Lemma Reachable_collections_truthy (h : hook) :
  Reachable h ->
  ToBoolean (timeline h) = true /\ ToBoolean (pendingTickets h) = true.
Proof.
  induction 1 as [rs t h E | e h _ [IH1 IH2]].
  - destruct rs; cbv in E; injection E as <-; split; reflexivity.
  - destruct (collections_after_event e h)
      as [[A|(m & _ & A & A')] [B|(m' & _ & B & B')]];
      rewrite A, B; auto.
Qed.

(** X20: in every state of a mounted hook the timeline and the pending
    tickets are truthy values, never [null] or [undefined]: the
    dashboard's reads of [timeline.length] and [pendingTickets.length]
    do not throw. *)
Theorem collections_are_never_null (h : hook) :
  Reachable h ->
  ToBoolean (timeline h) = true /\
  ToBoolean (pendingTickets h) = true /\
  (exists b, length_is_zero (timeline h) = Normal b) /\
  (exists b, length_is_zero (pendingTickets h) = Normal b).
Proof.
  intros HR. destruct (Reachable_collections_truthy h HR) as [T1 T2].
  split; [exact T1|]. split; [exact T2|]. split.
  - destruct (timeline h); try discriminate; eexists; reflexivity.
  - destruct (pendingTickets h); try discriminate; eexists; reflexivity.
Qed.

Lemma collections_are_never_null_witness :
  let h := run [JsonMessage (VObject [("type", VString "timeline_update");
                                      ("timeline", VNull)]);
                JsonMessage VNull]
             (first_render CONNECTING 0) in
  ToBoolean (timeline h) = true /\
  ToBoolean (pendingTickets h) = true /\
  (exists b, length_is_zero (timeline h) = Normal b) /\
  (exists b, length_is_zero (pendingTickets h) = Normal b).
Proof.
  intros h. apply (collections_are_never_null h).
  subst h. cbn [run fold_left]. do 2 apply Reachable_step.
  apply (Reachable_mount CONNECTING 0). reflexivity.
Defined.

Lemma arrays_after_event (e : event) (h : hook) :
  carries_arrays e = true ->
  is_array (timeline h) = true ->
  is_array (pendingTickets h) = true ->
  is_array (timeline (after e h)) = true /\
  is_array (pendingTickets (after e h)) = true.
Proof.
  intros He Ht Hp.
  destruct (collections_after_event e h)
    as [[A|(m & E & A & A')] [B|(m' & E' & B & B')]]; rewrite A, B;
    split; try assumption.
  - subst e. cbn [carries_arrays] in He. apply andb_prop in He.
    destruct He as [_ He]. rewrite B' in He. exact He.
  - subst e. cbn [carries_arrays] in He. apply andb_prop in He.
    destruct He as [He _]. rewrite A' in He. exact He.
  - subst e. cbn [carries_arrays] in He. apply andb_prop in He.
    destruct He as [He _]. rewrite A' in He. exact He.
  - subst e. injection E' as <-. cbn [carries_arrays] in He.
    apply andb_prop in He. destruct He as [_ He]. rewrite B' in He. exact He.
Qed.

(** X21: through any run in which every inbound message carries arrays
    where it carries a timeline or pending tickets at all, both
    collections stay arrays, and the dashboard maps over exactly the
    entries of each. *)
Theorem arrays_stay_arrays (es : list event) (h : hook) :
  forallb carries_arrays es = true ->
  is_array (timeline h) = true ->
  is_array (pendingTickets h) = true ->
  exists entries tickets,
    timeline (run es h) = VArray entries /\
    pendingTickets (run es h) = VArray tickets /\
    mapped_entries (timeline (run es h)) = Normal entries /\
    mapped_entries (pendingTickets (run es h)) = Normal tickets.
Proof.
  intros Hes Ht Hp.
  assert (A : is_array (timeline (run es h)) = true /\
              is_array (pendingTickets (run es h)) = true).
  { revert h Ht Hp. induction es as [|e es IH]; intros h Ht Hp; [auto|].
    cbn [forallb] in Hes. apply andb_prop in Hes. destruct Hes as [He Hes].
    cbn [run fold_left]. fold (run es (after e h)).
    destruct (arrays_after_event e h He Ht Hp) as [A1 A2].
    exact (IH Hes _ A1 A2). }
  destruct A as [A1 A2].
  destruct (timeline (run es h)) as [| | | | | |entries|]; try discriminate.
  destruct (pendingTickets (run es h)) as [| | | | | |tickets|]; try discriminate.
  exists entries, tickets. repeat split.
  - destruct entries; reflexivity.
  - destruct tickets; reflexivity.
Qed.

Lemma arrays_stay_arrays_witness :
  exists entries tickets,
    timeline (run [CallOnOpen;
                   JsonMessage (VObject [("type", VString "initial_data");
                                         ("timeline", VArray [VString "e"])])]
                (first_render CONNECTING 0)) = VArray entries /\
    pendingTickets (run [CallOnOpen;
                         JsonMessage (VObject [("type", VString "initial_data");
                                               ("timeline", VArray [VString "e"])])]
                      (first_render CONNECTING 0)) = VArray tickets /\
    mapped_entries
      (timeline (run [CallOnOpen;
                      JsonMessage (VObject [("type", VString "initial_data");
                                            ("timeline", VArray [VString "e"])])]
                   (first_render CONNECTING 0))) = Normal entries /\
    mapped_entries
      (pendingTickets (run [CallOnOpen;
                            JsonMessage (VObject [("type", VString "initial_data");
                                                  ("timeline", VArray [VString "e"])])]
                         (first_render CONNECTING 0))) = Normal tickets.
Proof.
  apply (arrays_stay_arrays
           [CallOnOpen;
            JsonMessage (VObject [("type", VString "initial_data");
                                  ("timeline", VArray [VString "e"])])]
           (first_render CONNECTING 0)); reflexivity.
Defined.

(** X22: a [timeline_update] frame whose [timeline] member is truthy
    but neither an array nor a value whose [length] is 0 (a number, a
    non-empty string, [true], an object without a zero [length])
    becomes the timeline, and the dashboard's [timeline.map] then throws
    a [TypeError]. *)
Theorem non_array_timeline_breaks_map (m : value) (h : hook) :
  Get m "type" = VString "timeline_update" ->
  ToBoolean (Get m "timeline") = true ->
  is_array (Get m "timeline") = false ->
  length_is_zero (Get m "timeline") = Normal false ->
  timeline (after (JsonMessage m) h) = Get m "timeline" /\
  mapped_entries (timeline (after (JsonMessage m) h)) = Throw TypeError.
Proof.
  intros Hty Ht Ha Hl.
  rewrite (timeline_update_replaces m h Hty Ht). split; [reflexivity|].
  unfold mapped_entries. rewrite Hl. cbn [bind].
  destruct (Get m "timeline"); try reflexivity. discriminate.
Qed.

Lemma non_array_timeline_breaks_map_witness :
  let m := VObject [("type", VString "timeline_update");
                    ("timeline", VObject [("ticket_id", VNull)])] in
  timeline (after (JsonMessage m) (first_render OPEN 0)) = Get m "timeline" /\
  mapped_entries (timeline (after (JsonMessage m) (first_render OPEN 0)))
    = Throw TypeError.
Proof.
  intros m. apply (non_array_timeline_breaks_map m (first_render OPEN 0));
    reflexivity.
Defined.
